(** * yt-oi-screener: open-interest screener

  A shallow embedding of [app/screener/consumer.py] (the detection loop)
  and [app/screener/producer.py] (the acquisition loop and its
  sliding-window store), with the properties of the specification stated
  and proved over it.

  Conventions of the embedding:
  - a Python [float] is an IEEE-754 binary64 value, [spec_float] with
    precision 53 and maximal exponent 1024; arithmetic is the correctly
    rounded one of [SpecFloat]. The floats of a run are the canonical ones
    ([valid_binary]); the theorems below hold of every [spec_float];
  - a Python [int] is a [Z];
  - a [dict] with string keys is a [gmap string _]. A loop over the items of
    a [dict] is a loop over [map_to_list]: the keys are visited once each,
    in an order that differs from the insertion order of Python and on
    which no property below depends;
  - every call of [time.time()] is a reading of a clock owned by the
    environment: a function that reads the clock once takes the reading as
    its argument [now]; the detection tick, which reads it at several
    places for every symbol, takes a function from the symbol and the
    place of the call to the reading, so that no two readings are assumed
    equal or ordered;
  - a function that can raise returns a [result]; an awaited operation
    that may never complete has an [outcome]. *)

From Stdlib Require Import ZArith Bool Floats.SpecFloat.
From stdpp Require Import gmap strings list fin_maps.

Open Scope Z_scope.

(** ** Python floats *)

Module PyFloat.

Definition float : Type := spec_float.

Definition prec : Z := 53.
Definition emax : Z := 1024.

Definition inf : float := S754_infinity false.
Definition neg_inf : float := S754_infinity true.

(** [float(z)] for an integer [z], rounded to nearest even (Python raises
  [OverflowError] where this gives an infinity; the integers converted here
  are the settings in seconds and small constants). *)
Definition of_int (z : Z) : float := binary_normalize prec emax z 0 false.

Definition add (x y : float) : float := SFadd prec emax x y.
Definition sub (x y : float) : float := SFsub prec emax x y.
Definition mul (x y : float) : float := SFmul prec emax x y.

(** [x < y] and [x > y]; every comparison with a NaN is false. *)
Definition ltb (x y : float) : bool := SFltb x y.
Definition gtb (x y : float) : bool := SFltb y x.

Definition is_zero (x : float) : bool :=
  match x with S754_zero _ => true | _ => false end.

Definition is_finite (x : float) : bool :=
  match x with S754_zero _ | S754_finite _ _ _ => true | _ => false end.

(** [bool(x)]: a float is falsy exactly when it equals zero. *)
Definition truthy (x : float) : bool := negb (is_zero x).

(** [z < x] and [z >= x] for an [int] [z] and a [float] [x]. Python compares
  the two on their exact values; the exact value of a finite float is
  [(-1)^s * m * 2^e]. *)
Definition int_ltb (z : Z) (x : float) : bool :=
  match x with
  | S754_nan => false
  | S754_infinity s => negb s
  | S754_zero _ => z <? 0
  | S754_finite s m e =>
      let sm := if s then Z.neg m else Z.pos m in
      if 0 <=? e then z <? sm * 2 ^ e else z * 2 ^ (- e) <? sm
  end.

Definition int_geb (z : Z) (x : float) : bool :=
  match x with
  | S754_nan => false
  | S754_infinity s => s
  | S754_zero _ => 0 <=? z
  | S754_finite s m e =>
      let sm := if s then Z.neg m else Z.pos m in
      if 0 <=? e then sm * 2 ^ e <=? z else sm <=? z * 2 ^ (- e)
  end.

End PyFloat.

Abbreviation float := PyFloat.float.

(** ** Exceptions *)

Inductive exn : Type :=
| ZeroDivisionError
| Exception (msg : string).

Inductive result (A : Type) : Type :=
| Return (a : A)
| Raise (e : exn).
Arguments Return {A} a.
Arguments Raise {A} e.

Definition bind {A B : Type} (r : result A) (k : A → result B) : result B :=
  match r with
  | Return a => k a
  | Raise e => Raise e
  end.

(** What awaiting an operation gives: it completes, by returning or by
  raising, or it never completes. *)
Inductive outcome (A : Type) : Type :=
| Done (r : result A)
| Pending.
Arguments Done {A} r.
Arguments Pending {A}.

(** [x / y] on floats: Python raises [ZeroDivisionError] on a zero divisor
  of either sign, and otherwise returns the rounded quotient. *)
Definition truediv (x y : float) : result float :=
  if PyFloat.is_zero y then Raise ZeroDivisionError
  else Return (SFdiv PyFloat.prec PyFloat.emax x y).

(** ** Data model *)

(** [OpenInterestItem]: a [TypedDict] with the keys ["t"] (milliseconds, an
  [int]) and ["v"] (the open-interest value, a [float]). *)
Record OpenInterestItem : Type := { oi_t : Z; oi_v : float }.

(** [TickerDailyItem]: the keys ["p"] (daily price change in percent) and
  ["q"] (daily volume) are the ones the screener reads. *)
Record TickerDailyItem : Type := { td_p : float; td_q : float }.

(** Modelled from the spec: [SettingsDTO] lives in [app.models]; its fields
  are the Settings of the data model (minGrowthPct, lookbackSeconds,
  cooldownSeconds, ready, notifier credentials) under the names the
  consumer reads them by. *)
Record SettingsDTO : Type := {
  is_ready : bool;
  min_growth_prct : float;
  interval : Z;
  timeout : Z;
  bot_token : string;
  chat_id : string
}.

(** ** Consumer: the growth computation *)

Module Consumer.

(** The local variables of the loop of [_calculate_open_interest]. *)
Record locals : Type := { found : bool; _min : float; _max : float }.

Definition locals_init : locals :=
  {| found := false; _min := PyFloat.inf; _max := PyFloat.neg_inf |}.

(** One iteration of [for el in open_interest]. *)
Definition loop_body (time_threshold : float) (el : OpenInterestItem)
    (l : locals) : locals :=
  if PyFloat.int_ltb (oi_t el) time_threshold then l
  else
    let l1 :=
      if PyFloat.ltb (oi_v el) (_min l)
      then {| found := true; _min := oi_v el; _max := oi_v el |}
      else l in
    if PyFloat.gtb (oi_v el) (_max l1)
    then {| found := found l1; _min := _min l1; _max := oi_v el |}
    else l1.

Fixpoint loop (time_threshold : float) (open_interest : list OpenInterestItem)
    (l : locals) : locals :=
  match open_interest with
  | [] => l
  | el :: rest => loop time_threshold rest (loop_body time_threshold el l)
  end.

Definition time_threshold (settings : SettingsDTO) (now : float) : float :=
  PyFloat.mul (PyFloat.sub now (PyFloat.of_int (interval settings)))
              (PyFloat.of_int 1000).

(** [_calculate_open_interest]; [now] is the reading of [time.time()]. *)
Definition _calculate_open_interest (settings : SettingsDTO) (now : float)
    (open_interest : list OpenInterestItem) : result (option float) :=
  let l := loop (time_threshold settings now) open_interest locals_init in
  if negb (found l) then Return None
  else
    match truediv (PyFloat.sub (_max l) (_min l)) (_min l) with
    | Return q => Return (Some (PyFloat.mul q (PyFloat.of_int 100)))
    | Raise ZeroDivisionError => Return None
    | Raise e => Raise e
    end.

End Consumer.

(** ** The growth algorithm as the specification words it *)

Module Reference.

(** A sample passes the time filter when [timestamp ≥ threshold], the
  threshold being [now - lookbackSeconds*1000]. *)
Definition passes (time_threshold : float) (el : OpenInterestItem) : bool :=
  PyFloat.int_geb (oi_t el) time_threshold.

Definition in_window (settings : SettingsDTO) (now : float)
    (el : OpenInterestItem) : bool :=
  passes (Consumer.time_threshold settings now) el.

(** A value strictly below the running min sets min and max to it; a value
    strictly above the running max becomes the max. *)
Definition step (acc : float * float) (x : float) : float * float :=
  let '(mn, mx) := if PyFloat.ltb x acc.1 then (x, x) else acc in
  if PyFloat.gtb x mx then (mn, x) else (mn, mx).

Definition running_min_max (values : list float) : float * float :=
  foldl step (PyFloat.inf, PyFloat.neg_inf) values.

(** Undefined when no sample passed the filter or when the min is zero,
    else [(max - min) / min * 100]. *)
Definition growth (settings : SettingsDTO) (now : float)
    (window : list OpenInterestItem) : option float :=
  match filter (λ el, in_window settings now el = true) window with
  | [] => None
  | samples =>
      let '(mn, mx) := running_min_max (oi_v <$> samples) in
      if PyFloat.is_zero mn then None
      else Some (PyFloat.mul
                   (SFdiv PyFloat.prec PyFloat.emax (PyFloat.sub mx mn) mn)
                   (PyFloat.of_int 100))
  end.

End Reference.

(** ** The cooldown tracker *)

Module TimeoutTracker.

(** Modelled from the spec: [TimeoutTracker] comes from the [unicex]
  package, not from this repository. The tracker is a mapping from a key to
  its unblock deadline; a key with no entry, or whose deadline has passed,
  is unblocked. Expiry is lazy: it is checked on read, and the read evicts
  an expired entry.
  [is_blocked(key)] at clock reading [now]: true if [key] has an unexpired
  block. Returns the answer and the tracker after the call. *)
Definition is_blocked (now : float) (key : string) (tr : gmap string float)
    : bool * gmap string float :=
  match tr !! key with
  | Some deadline =>
      if PyFloat.ltb now deadline then (true, tr) else (false, delete key tr)
  | None => (false, tr)
  end.

(** Modelled from the spec: [block(key, duration)] at clock reading [now]
  sets or overwrites the deadline to [now + duration]. *)
Definition block (now : float) (key : string) (duration : Z)
    (tr : gmap string float) : gmap string float :=
  <[key := PyFloat.add now (PyFloat.of_int duration)]> tr.

End TimeoutTracker.

(** ** Consumer: the detection tick *)

(** The members of [unicex.Exchange] that the sources name; the other
  members of the enumeration are [OtherExchange]. *)
Inductive Exchange : Type :=
| ASTER
| BINANCE
| BINGX
| GATE
| OtherExchange (name : string).

Inductive MarketType : Type :=
| FUTURES
| SPOT.

(** The arguments [create_text] is called with. The text it builds from
  them is formatted by helpers of [unicex]; a message is identified here
  with the arguments it is built from. *)
Record SignalText : Type := {
  text_symbol : string;
  text_change_pct : float;
  text_exchange : Exchange;
  text_market_type : MarketType;
  text_daily_price : float;
  text_daily_volume : float
}.

Definition create_text (symbol : string) (change_pct : float)
    (exchange : Exchange) (market_type : MarketType)
    (daily_price daily_volume : float) : SignalText :=
  {| text_symbol := symbol; text_change_pct := change_pct;
     text_exchange := exchange; text_market_type := market_type;
     text_daily_price := daily_price; text_daily_volume := daily_volume |}.

(** The task [asyncio.create_task(self._telegram_bot.send_message(...))]:
  a scheduled call of [send_message] with these arguments. *)
Record Task : Type := {
  task_bot_token : string;
  task_chat_id : string;
  task_text : SignalText
}.

Definition task_symbol (task : Task) : string := text_symbol (task_text task).

(** The places of a detection tick that read the clock while a symbol is
  processed: [TimeoutTracker.is_blocked], [_calculate_open_interest] and
  [TimeoutTracker.block]. *)
Inductive ClockSite : Type :=
| InIsBlocked
| InCalculate
| InBlock.

(** What one iteration of [Consumer.start] finds in its environment: the
  settings object (replaceable between ticks by [update_settings]), the
  two stores of the producer, the readings of the clock, and what becomes
  of each notification that is sent. *)
Record Tick : Type := {
  tick_settings : SettingsDTO;
  all_klines : gmap string (list OpenInterestItem);
  all_ticker_daily : gmap string TickerDailyItem;
  time_time : string → ClockSite → float;
  send_message : Task → outcome unit
}.

Module Detection.

Section WithExchange.

Variable exchange : Exchange.
Variable market_type : MarketType.

(** [_process_symbol]; [now] is the clock reading of the growth
  computation. [change_pct and change_pct > ...] is false for [None] and,
  by the truth value of a float, for a zero [change_pct]. *)
Definition _process_symbol (settings : SettingsDTO) (now : float)
    (symbol : string) (open_interest : list OpenInterestItem)
    (ticker_daily : TickerDailyItem) : result (option Task) :=
  bind (Consumer._calculate_open_interest settings now open_interest)
    (λ change_pct,
      match change_pct with
      | Some c =>
          if PyFloat.truthy c && PyFloat.gtb c (min_growth_prct settings)
          then Return (Some
                 {| task_bot_token := bot_token settings;
                    task_chat_id := chat_id settings;
                    task_text := create_text symbol c exchange market_type
                                   (td_p ticker_daily) (td_q ticker_daily) |})
          else Return None
      | None => Return None
      end).

(** The body of the loop [for symbol, klines in all_klines.items()] of
  [_process], with the list [tasks] and the tracker as they are before the
  visit: whether the body raised, and the two after it. *)
Definition visit (tk : Tick) (entry : string * list OpenInterestItem)
    (tasks : list Task) (tracker : gmap string float)
    : result unit * list Task * gmap string float :=
  let '(symbol, klines) := entry in
  let '(blocked, tracker1) :=
    TimeoutTracker.is_blocked (time_time tk symbol InIsBlocked) symbol tracker in
  if blocked then (Return tt, tasks, tracker1)
  else
    match all_ticker_daily tk !! symbol with
    | None => (Return tt, tasks, tracker1)
    | Some ticker_daily =>
        match _process_symbol (tick_settings tk)
                (time_time tk symbol InCalculate) symbol klines ticker_daily with
        | Raise e => (Raise e, tasks, tracker1)
        | Return None => (Return tt, tasks, tracker1)
        | Return (Some task) =>
            (Return tt, tasks ++ [task],
             TimeoutTracker.block (time_time tk symbol InBlock) symbol
               (timeout (tick_settings tk)) tracker1)
        end
    end.

(** The loop itself, over the items still to visit. An exception leaves
  the loop with the list and the tracker as they are at that point. *)
Fixpoint for_symbols (tk : Tick) (items : list (string * list OpenInterestItem))
    (tasks : list Task) (tracker : gmap string float)
    : result unit * list Task * gmap string float :=
  match items with
  | [] => (Return tt, tasks, tracker)
  | entry :: rest =>
      let '(r, tasks1, tracker1) := visit tk entry tasks tracker in
      match r with
      | Raise e => (Raise e, tasks1, tracker1)
      | Return _ => for_symbols tk rest tasks1 tracker1
      end
  end.

(** Awaiting [asyncio.gather] on the tasks: raises as soon as one task raises
  (taken here to be the first such task of the list), never completes if
  none raises and one never completes, and returns otherwise. *)
Fixpoint gather (send : Task → outcome unit) (tasks : list Task) : outcome unit :=
  match tasks with
  | [] => Done (Return tt)
  | task :: rest =>
      match send task with
      | Done (Raise e) => Done (Raise e)
      | Done (Return _) => gather send rest
      | Pending =>
          match gather send rest with
          | Done (Raise e) => Done (Raise e)
          | _ => Pending
          end
      end
  end.

(** [_process]: what awaiting it gives, the tasks it created, and the
  tracker it leaves. *)
Definition _process (tk : Tick) (tracker : gmap string float)
    : outcome unit * list Task * gmap string float :=
  let '(r, tasks, tracker') :=
    for_symbols tk (map_to_list (all_klines tk)) [] tracker in
  match r with
  | Raise e => (Done (Raise e), tasks, tracker')
  | Return _ =>
      match tasks with
      | [] => (Done (Return tt), tasks, tracker')
      | _ => (gather (send_message tk) tasks, tasks, tracker')
      end
  end.

(** The same tick with another fate of the notifications. *)
Definition with_send (tk : Tick) (send : Task → outcome unit) : Tick :=
  {| tick_settings := tick_settings tk;
     all_klines := all_klines tk;
     all_ticker_daily := all_ticker_daily tk;
     time_time := time_time tk;
     send_message := send |}.

(** [start], over the ticks that happen while [_running] holds: the tasks
  created at each tick, and the tracker at the end. A tick whose settings
  are not ready is skipped; an exception of [_process] is logged and the loop
  goes on; a [_process] that never completes is the last tick. *)
Fixpoint start (ticks : list Tick) (tracker : gmap string float)
    : list (list Task) * gmap string float :=
  match ticks with
  | [] => ([], tracker)
  | tk :: rest =>
      if negb (is_ready (tick_settings tk))
      then let '(log, tracker') := start rest tracker in ([] :: log, tracker')
      else
        let '(o, tasks, tracker1) := _process tk tracker in
        match o with
        | Pending => ([tasks], tracker1)
        | Done _ =>
            let '(log, tracker') := start rest tracker1 in (tasks :: log, tracker')
        end
  end.

(** What the visit of [symbol] in [visit] comes to when the tracker is
  [tracker] before it: the task it creates, if any. *)
Definition alert_for (tk : Tick) (tracker : gmap string float)
    (symbol : string) (klines : list OpenInterestItem) : option Task :=
  if (TimeoutTracker.is_blocked (time_time tk symbol InIsBlocked) symbol tracker).1
  then None
  else
    match all_ticker_daily tk !! symbol with
    | None => None
    | Some ticker_daily =>
        match _process_symbol (tick_settings tk)
                (time_time tk symbol InCalculate) symbol klines ticker_daily with
        | Return (Some task) => Some task
        | _ => None
        end
    end.

(** The deadline that [visit] arms for [symbol]. *)
Definition armed_deadline (tk : Tick) (symbol : string) : float :=
  PyFloat.add (time_time tk symbol InBlock)
              (PyFloat.of_int (timeout (tick_settings tk))).

(** The entry of [symbol] in the tracker after its visit, from the entry
  before it and the task the visit created. *)
Definition entry_after (tk : Tick) (symbol : string) (entry : option float)
    (alert : option Task) : option float :=
  match alert, entry with
  | Some _, _ => Some (armed_deadline tk symbol)
  | None, Some deadline =>
      if PyFloat.ltb (time_time tk symbol InIsBlocked) deadline
      then Some deadline else None
  | None, None => None
  end.

(** The tasks of a list that notify about [symbol]. *)
Definition tasks_of (symbol : string) (tasks : list Task) : list Task :=
  filter (λ task, task_symbol task = symbol) tasks.

End WithExchange.

End Detection.

(** ** Producer: acquisition and the sliding-window store *)

Module Producer.

Definition _MAX_HISTORY_LEN : Z := 60 * 15.

Definition _CHUNK_SIZE (exchange : Exchange) : option Z :=
  match exchange with
  | BINANCE => Some 20
  | GATE => Some 7
  | _ => None
  end.

Definition _DEFAULT_CHUNK_SIZE : Z := 20.

(** The part of [unicex.IUniClient] that the batched fetch uses.
  [futures_tickers_batched batch_size] lists the tradable symbols in
  chunks. [open_interest c i ticker] is what the request for [ticker],
  issued as request [i] of chunk [c], ends with: it raises an [Exception],
  or it returns a response, where [None] stands for a falsy response (no
  item, or an empty one). *)
Record IUniClient : Type := {
  futures_tickers_batched : Z → list (list string);
  open_interest : nat → nat → string → result (option OpenInterestItem)
}.

(** [await asyncio.gather] on the requests of a chunk, with
  [return_exceptions=True]: one entry for every request, in the order of
  the chunk, an exception taking the place of the response of a request
  that raised. *)
Definition gather_responses (client : IUniClient) (c : nat) (chunk : list string)
    : list (result (option OpenInterestItem)) :=
  imap (λ i ticker, open_interest client c i ticker) chunk.

(** The body of [for ticker, response in zip(chunk, responses)]. *)
Definition record_response (results : gmap string OpenInterestItem)
    (entry : string * result (option OpenInterestItem))
    : gmap string OpenInterestItem :=
  match entry.2 with
  | Raise _ => results
  | Return None => results
  | Return (Some response) => <[entry.1 := response]> results
  end.

(** The loop [for chunk in chunked_tickers_list], from chunk number [c]
  on. The pause [asyncio.sleep(chunk_interval)] after a chunk does not bear
  on the result and is left out. *)
Fixpoint for_chunks (client : IUniClient) (c : nat) (chunks : list (list string))
    (results : gmap string OpenInterestItem) : gmap string OpenInterestItem :=
  match chunks with
  | [] => results
  | chunk :: rest =>
      let responses := gather_responses client c chunk in
      for_chunks client (S c) rest
        (foldl record_response results (zip chunk responses))
  end.

(** Every request of the batch with what it ended with, in the order of
  the loop. *)
Fixpoint requests (client : IUniClient) (c : nat) (chunks : list (list string))
    : list (string * result (option OpenInterestItem)) :=
  match chunks with
  | [] => []
  | chunk :: rest =>
      zip chunk (gather_responses client c chunk) ++ requests client (S c) rest
  end.

Definition _fetch_open_interest_snapshot_batched (exchange : Exchange)
    (client : IUniClient) : gmap string OpenInterestItem :=
  let chunk_size := default _DEFAULT_CHUNK_SIZE (_CHUNK_SIZE exchange) in
  let chunked_tickers_list := futures_tickers_batched client chunk_size in
  for_chunks client 0 chunked_tickers_list ∅.

(** [threshold] of [_process_snapshot], from the clock reading [now]. *)
Definition threshold (now : float) : float :=
  PyFloat.mul (PyFloat.sub now (PyFloat.of_int _MAX_HISTORY_LEN))
              (PyFloat.of_int 1000).

(** [el["t"] >= threshold]. *)
Definition retained (threshold : float) (el : OpenInterestItem) : bool :=
  PyFloat.int_geb (oi_t el) threshold.

(** The body of the loop of [_process_snapshot]. The store is a
  [defaultdict(list)]: a symbol without an entry reads as the empty list. *)
Definition merge_item (threshold : float)
    (store : gmap string (list OpenInterestItem))
    (entry : string * OpenInterestItem)
    : gmap string (list OpenInterestItem) :=
  let store1 := <[entry.1 := filter (λ el, retained threshold el = true) (store !!! entry.1)]> store in
  <[entry.1 := (store1 !!! entry.1) ++ [entry.2]]> store1.

(** [_process_snapshot]; [now] is the reading of [time.time()]. *)
Definition _process_snapshot (now : float)
    (open_interest : gmap string OpenInterestItem)
    (store : gmap string (list OpenInterestItem))
    : gmap string (list OpenInterestItem) :=
  foldl (merge_item (threshold now)) store (map_to_list open_interest).

End Producer.

(** ** The store under its lock *)

Module Locking.

(** The two tasks that use [_open_interest_lock]: the loop of
  [Producer.start], which holds it around [_process_snapshot], and a call of
  [Producer.fetch_collected_data], which holds it around its [return]. Every
  step of either task is a point where the other may run; the lock is
  acquired only when it is free. *)
Inductive Owner : Type :=
| ProducerTask
| ConsumerTask.

(** Where the producer is: outside the lock, with the iterations to come
  (each with its clock reading and its normalised snapshot), or inside
  [_process_snapshot], with the threshold of this call, the items of the
  snapshot still to merge, and the iterations to come. *)
Inductive producer_pc : Type :=
| POutside (pending : list (float * gmap string OpenInterestItem))
| PInside (threshold : float) (todo : list (string * OpenInterestItem))
          (pending : list (float * gmap string OpenInterestItem)).

(** Where the call of [fetch_collected_data] is: not yet entered, inside
  the lock, past the evaluation of [return self._open_interest] with the
  lock still held, or returned. The value carried is the content of the
  store object at the moment the [return] is evaluated (the call returns a
  reference to that object). *)
Inductive consumer_pc : Type :=
| CBefore
| CInside
| CReturning (v : gmap string (list OpenInterestItem))
| CReturned (v : gmap string (list OpenInterestItem)).

Record world : Type := {
  store : gmap string (list OpenInterestItem);
  lock : option Owner;
  ppc : producer_pc;
  cpc : consumer_pc
}.

Inductive step : world → world → Prop :=
| producer_acquire st now snapshot pending c :
    step {| store := st; lock := None;
            ppc := POutside ((now, snapshot) :: pending); cpc := c |}
         {| store := st; lock := Some ProducerTask;
            ppc := PInside (Producer.threshold now) (map_to_list snapshot) pending;
            cpc := c |}
| producer_merge st lk thr entry todo pending c :
    step {| store := st; lock := lk;
            ppc := PInside thr (entry :: todo) pending; cpc := c |}
         {| store := Producer.merge_item thr st entry; lock := lk;
            ppc := PInside thr todo pending; cpc := c |}
| producer_release st lk thr pending c :
    step {| store := st; lock := lk; ppc := PInside thr [] pending; cpc := c |}
         {| store := st; lock := None; ppc := POutside pending; cpc := c |}
| consumer_acquire st p :
    step {| store := st; lock := None; ppc := p; cpc := CBefore |}
         {| store := st; lock := Some ConsumerTask; ppc := p; cpc := CInside |}
| consumer_return st lk p :
    step {| store := st; lock := lk; ppc := p; cpc := CInside |}
         {| store := st; lock := lk; ppc := p; cpc := CReturning st |}
| consumer_release st lk p v :
    step {| store := st; lock := lk; ppc := p; cpc := CReturning v |}
         {| store := st; lock := None; ppc := p; cpc := CReturned v |}.

Definition initial (st : gmap string (list OpenInterestItem))
    (iterations : list (float * gmap string OpenInterestItem)) : world :=
  {| store := st; lock := None; ppc := POutside iterations; cpc := CBefore |}.

(** The store after a number of whole merges. *)
Definition merged (st : gmap string (list OpenInterestItem))
    (iterations : list (float * gmap string OpenInterestItem))
    : gmap string (list OpenInterestItem) :=
  foldl (λ s it, Producer._process_snapshot it.1 it.2 s) st iterations.

Definition returned (w : world) : option (gmap string (list OpenInterestItem)) :=
  match cpc w with
  | CReturned v => Some v
  | _ => None
  end.

(** What holds of every world reachable from [initial st iterations]. The
  producer outside the lock has completed a prefix of the iterations and the
  store is the result of these whole merges; inside the lock it holds the
  lock and has merged a prefix of the items of the current snapshot. The
  call of [fetch_collected_data] holds the lock while it is inside, and the
  value it carries is the store after a whole number of merges. *)
Definition invariant (st : gmap string (list OpenInterestItem))
    (iterations : list (float * gmap string OpenInterestItem)) (w : world) : Prop :=
  match ppc w with
  | POutside pending =>
      lock w ≠ Some ProducerTask
      ∧ ∃ completed, iterations = completed ++ pending
                     ∧ store w = merged st completed
  | PInside thr todo pending =>
      lock w = Some ProducerTask
      ∧ ∃ completed now snapshot processed,
          iterations = completed ++ (now, snapshot) :: pending
          ∧ thr = Producer.threshold now
          ∧ map_to_list snapshot = processed ++ todo
          ∧ store w = foldl (Producer.merge_item thr) (merged st completed) processed
  end
  ∧ match cpc w with
    | CBefore => lock w ≠ Some ConsumerTask
    | CInside => lock w = Some ConsumerTask
    | CReturning v =>
        lock w = Some ConsumerTask
        ∧ ∃ completed pending, iterations = completed ++ pending
                               ∧ v = merged st completed
    | CReturned v =>
        lock w ≠ Some ConsumerTask
        ∧ ∃ completed pending, iterations = completed ++ pending
                               ∧ v = merged st completed
    end.

End Locking.

(** ** Concrete values used by the examples *)

Module Examples.

(** 87.5 as a binary64 value: 6157265115545600 * 2^-46. *)
Definition f87_5 : float := S754_finite false 6157265115545600 (-46).

Definition settings0 : SettingsDTO :=
  {| is_ready := true; min_growth_prct := PyFloat.of_int 25; interval := 300;
     timeout := 60; bot_token := "token"; chat_id := "chat" |}.

(** A clock reading: 1700000000 seconds after the epoch. *)
Definition now0 : float := PyFloat.of_int 1700000000.

Definition item (t v : Z) : OpenInterestItem :=
  {| oi_t := t; oi_v := PyFloat.of_int v |}.

(** Four samples inside the lookback interval of [settings0] at [now0]. *)
Definition window0 : list OpenInterestItem :=
  [item 1699999910000 100; item 1699999940000 80;
   item 1699999970000 150; item 1699999990000 90].

(** The open interest falls from 100 to 0 and comes back to 150, all in the
  lookback interval. *)
Definition window_zero : list OpenInterestItem :=
  [item 1699999910000 100; item 1699999940000 0; item 1699999970000 150].

Definition daily0 : gmap string TickerDailyItem :=
  {[ "XYZ" := {| td_p := PyFloat.of_int 2; td_q := PyFloat.of_int 1000000 |} ]}.

(** A clock that reads [now0] at every call. *)
Definition clock0 : string → ClockSite → float := λ _ _, now0.

Definition sent : Task → outcome unit := λ _, Done (Return tt).

(** The open interest of XYZ rises from 1000 to 1300 in the lookback
  interval; the threshold of [settings0] is 25 percent. *)
Definition tick_spike : Tick :=
  {| tick_settings := settings0;
     all_klines := {[ "XYZ" := [item 1699999910000 1000; item 1699999990000 1300] ]};
     all_ticker_daily := daily0;
     time_time := clock0;
     send_message := sent |}.

(** The same spike one second later. *)
Definition tick_spike_again : Tick :=
  {| tick_settings := settings0;
     all_klines := {[ "XYZ" := [item 1699999910000 1000; item 1699999990000 1300] ]};
     all_ticker_daily := daily0;
     time_time := λ _ _, PyFloat.of_int 1700000001;
     send_message := sent |}.

(** Settings with a negative threshold. *)
Definition settings_negative : SettingsDTO :=
  {| is_ready := true; min_growth_prct := PyFloat.of_int (-1); interval := 300;
     timeout := 60; bot_token := "token"; chat_id := "chat" |}.

(** XYZ has one sample in the lookback interval. *)
Definition tick_flat : Tick :=
  {| tick_settings := settings_negative;
     all_klines := {[ "XYZ" := [item 1699999990000 50] ]};
     all_ticker_daily := daily0;
     time_time := clock0;
     send_message := sent |}.

(** A stored symbol that the exchange no longer lists, with a sample from
  long ago, and a snapshot whose item carries an old timestamp too. *)
Definition store_stale : gmap string (list OpenInterestItem) :=
  {[ "OLD" := [item 1000 5] ]}.

Definition snapshot_stale : gmap string OpenInterestItem :=
  {[ "XYZ" := item 2000 7 ]}.

(** A store with an old and a recent sample of XYZ, and a fresh snapshot. *)
Definition store0 : gmap string (list OpenInterestItem) :=
  {[ "XYZ" := [item 1000 5; item 1699999990000 6] ]}.

Definition snapshot0 : gmap string OpenInterestItem :=
  {[ "XYZ" := item 1699999995000 7 ]}.

(** A client that lists three symbols in chunks of two; the request for
  BBB raises, the one for CCC comes back empty. *)
Definition client0 : Producer.IUniClient :=
  {| Producer.futures_tickers_batched := λ _, [["AAA"; "BBB"]; ["CCC"]];
     Producer.open_interest := λ _ _ ticker,
       if String.eqb ticker "AAA" then Return (Some (item 1699999995000 7))
       else if String.eqb ticker "BBB" then Raise (Exception "timeout")
       else Return None |}.

(** A store with a second symbol, which [snapshot0] does not name. *)
Definition store1 : gmap string (list OpenInterestItem) :=
  {[ "OLD" := [item 1000 5];
     "XYZ" := [item 1000 5; item 1699999990000 6] ]}.


Definition hanging : Task → outcome unit := λ _, Pending.

End Examples.

(** ** Producer: one iteration of the acquisition loop *)

Module Acquisition.

(** The body of the loop of [_normalize_open_interest_snapshot], for one
  item: [last_prices.get(ticker)] is [None] for a missing price, and
  [not last_price] holds for [None] and for a zero price; the division is
  tried, and a [ZeroDivisionError] leaves the item as it is. *)
Definition normalize_item (last_prices : gmap string float) (ticker : string)
    (open_interest_item : OpenInterestItem) : result OpenInterestItem :=
  match last_prices !! ticker with
  | None => Return open_interest_item
  | Some last_price =>
      if negb (PyFloat.truthy last_price) then Return open_interest_item
      else
        match truediv (oi_v open_interest_item) last_price with
        | Return open_interest_value =>
            Return {| oi_t := oi_t open_interest_item; oi_v := open_interest_value |}
        | Raise ZeroDivisionError => Return open_interest_item
        | Raise e => Raise e
        end
  end.

(** The loop [for ticker, open_interest_item in open_interest.items()]: it
  writes the new value into the item of the snapshot it was given. *)
Fixpoint normalize_items (last_prices : gmap string float)
    (items : list (string * OpenInterestItem))
    (open_interest : gmap string OpenInterestItem)
    : result (gmap string OpenInterestItem) :=
  match items with
  | [] => Return open_interest
  | (ticker, open_interest_item) :: rest =>
      bind (normalize_item last_prices ticker open_interest_item)
        (λ item, normalize_items last_prices rest (<[ticker := item]> open_interest))
  end.

(** [_normalize_open_interest_snapshot]; [futures_last_price] is what
  [await client.futures_last_price()] gives, a call made for BINGX and
  ASTER only. *)
Definition _normalize_open_interest_snapshot (exchange : Exchange)
    (futures_last_price : result (gmap string float))
    (open_interest : gmap string OpenInterestItem)
    : result (gmap string OpenInterestItem) :=
  match exchange with
  | BINGX | ASTER =>
      bind futures_last_price
        (λ last_prices,
           normalize_items last_prices (map_to_list open_interest) open_interest)
  | _ => Return open_interest
  end.

(** [_fetch_open_interest_snapshot]; [open_interest_all] is what the bulk
  request [await client.open_interest()] gives, a call made for the
  exchanges that are not fetched ticker by ticker. *)
Definition _fetch_open_interest_snapshot (exchange : Exchange)
    (client : Producer.IUniClient)
    (open_interest_all : result (gmap string OpenInterestItem))
    : result (gmap string OpenInterestItem) :=
  match exchange with
  | BINANCE | BINGX | GATE =>
      Return (Producer._fetch_open_interest_snapshot_batched exchange client)
  | _ => open_interest_all
  end.

(** What one iteration of [Producer.start] finds in its environment: the
  client that [_client_context] creates, or the exception of its creation;
  what the bulk request and the price request give; the clock reading of
  [_process_snapshot]. *)
Record Iteration : Type := {
  it_client : result Producer.IUniClient;
  it_open_interest_all : result (gmap string OpenInterestItem);
  it_futures_last_price : result (gmap string float);
  it_now : float
}.

(** The snapshot of an iteration, fetched and normalised. *)
Definition snapshot_of (exchange : Exchange) (it : Iteration)
    : result (gmap string OpenInterestItem) :=
  bind (it_client it) (λ client,
    bind (_fetch_open_interest_snapshot exchange client (it_open_interest_all it))
      (λ snapshot,
         _normalize_open_interest_snapshot exchange (it_futures_last_price it) snapshot)).

(** The body of [while self._is_running] in [start], on the store: an
  exception ([TimeoutError] or any other [Exception]) is logged and the store
  stays as it is. *)
Definition iteration (exchange : Exchange)
    (store : gmap string (list OpenInterestItem)) (it : Iteration)
    : gmap string (list OpenInterestItem) :=
  match snapshot_of exchange it with
  | Return snapshot => Producer._process_snapshot (it_now it) snapshot store
  | Raise _ => store
  end.

(** [start], over the iterations that happen while [_is_running] holds. *)
Definition start (exchange : Exchange) (iterations : list Iteration)
    (store : gmap string (list OpenInterestItem))
    : gmap string (list OpenInterestItem) :=
  foldl (iteration exchange) store iterations.

(** The loop of [_safe_sleep], from check number [i] on, with [remaining]
  turns of [range(seconds)] to go: [is_running i] is the flag [_is_running]
  as check number [i] finds it. The result is the number of one-second
  sleeps made. *)
Fixpoint safe_sleep_loop (is_running : nat → bool) (i remaining : nat) : nat :=
  match remaining with
  | O => O
  | S remaining' =>
      if negb (is_running i) then O
      else S (safe_sleep_loop is_running (S i) remaining')
  end.

(** [_safe_sleep(seconds)]: [range(seconds)] is empty for a negative
  [seconds]. *)
Definition _safe_sleep (is_running : nat → bool) (seconds : Z) : nat :=
  safe_sleep_loop is_running 0 (Z.to_nat seconds).

End Acquisition.

(** ** The text of a signal *)

Module CreateText.

(** [x >= y] on floats; false when either is a NaN. *)
Definition geb (x y : float) : bool := SFleb y x.

(** [direction_emoji] of [create_text]: a rocket for [change_pct >= 0], a
  red triangle otherwise. *)
Definition direction_emoji (change_pct : float) : string :=
  if geb change_pct (PyFloat.of_int 0) then "🚀" else "🔻".

Definition newline : string := String (Ascii.ascii_of_nat 10) "".

Section WithFormatters.

(** The helpers of [unicex.extra] and the float format [:.2f], which
  [create_text] calls and which are not part of this repository. *)
Variable generate_ex_link : Exchange → MarketType → string → string.
Variable make_humanreadable : float → string.
Variable format_2f : float → string.

Definition header (symbol : string) (change_pct : float) : string :=
  direction_emoji change_pct +:+ " Резкий рост ОИ: " +:+ symbol.

Definition body (change_pct daily_price daily_volume : float) : string :=
  "Открытый интерес вырос на " +:+ format_2f change_pct +:+ "%" +:+ newline
  +:+ "Изменение цены за день: " +:+ format_2f daily_price +:+ "%" +:+ newline
  +:+ "Объем за день: " +:+ make_humanreadable daily_volume +:+ " $".

(** The string that [create_text] returns for the arguments of a call. *)
Definition text (args : SignalText) : string :=
  header (text_symbol args) (text_change_pct args)
  +:+ newline +:+ newline
  +:+ body (text_change_pct args) (text_daily_price args) (text_daily_volume args)
  +:+ newline +:+ newline
  +:+ generate_ex_link (text_exchange args) (text_market_type args) (text_symbol args).

End WithFormatters.

End CreateText.

(** ** More concrete values *)

Module MoreExamples.

(** Prices for the normalisation: XYZ at 4, ZERO at 0, none for the
  others. *)
Definition prices0 : gmap string float :=
  {[ "XYZ" := PyFloat.of_int 4; "ZERO" := PyFloat.of_int 0 ]}.

Definition snapshot_three : gmap string OpenInterestItem :=
  {[ "XYZ" := Examples.item 1699999995000 100;
     "ZERO" := Examples.item 1699999995000 50;
     "NOPRICE" := Examples.item 1699999995000 60 ]}.

(** A window whose last sample dips below all the others. *)
Definition window_dip : list OpenInterestItem :=
  [Examples.item 1699999910000 100; Examples.item 1699999940000 150;
   Examples.item 1699999990000 90].

(** A window with only samples older than the lookback interval. *)
Definition window_stale : list OpenInterestItem :=
  [Examples.item 1000 100; Examples.item 2000 150].

(** A window with a stale sample before the four of [window0]. *)
Definition window_mixed : list OpenInterestItem :=
  Examples.item 1000 5 :: Examples.window0.

(** A store whose samples are all inside the retention horizon at
  [now0]. *)
Definition store_fresh : gmap string (list OpenInterestItem) :=
  {[ "XYZ" := [Examples.item 1699999990000 6] ]}.

(** The flag [_is_running] is cleared before the fourth check. *)
Definition stop_at_three : nat → bool := λ i, bool_decide (i < 3)%nat.

Definition settings_off : SettingsDTO :=
  {| is_ready := false; min_growth_prct := PyFloat.of_int 25; interval := 300;
     timeout := 60; bot_token := "token"; chat_id := "chat" |}.

Definition tick_off : Tick :=
  {| tick_settings := settings_off;
     all_klines := all_klines Examples.tick_spike;
     all_ticker_daily := Examples.daily0;
     time_time := Examples.clock0;
     send_message := Examples.sent |}.

(** An iteration on an exchange with a bulk request that succeeds. *)
Definition iteration_ok : Acquisition.Iteration :=
  {| Acquisition.it_client := Return Examples.client0;
     Acquisition.it_open_interest_all := Return Examples.snapshot0;
     Acquisition.it_futures_last_price := Return prices0;
     Acquisition.it_now := Examples.now0 |}.

(** An iteration whose bulk request times out. *)
Definition iteration_failed : Acquisition.Iteration :=
  {| Acquisition.it_client := Return Examples.client0;
     Acquisition.it_open_interest_all := Raise (Exception "timeout");
     Acquisition.it_futures_last_price := Return prices0;
     Acquisition.it_now := Examples.now0 |}.

End MoreExamples.

(** * Properties *)

(** ** Floats *)

Lemma ltb_irrefl (x : float) : PyFloat.ltb x x = false.
Proof.
  destruct x as [s|s| |s m e]; try (by destruct s); [done|].
  unfold PyFloat.ltb, SFltb, SFcompare.
  rewrite Z.compare_refl, Pos.compare_cont_refl. by destruct s.
Qed.

Lemma finite_ltb_inf (x : float) :
  PyFloat.is_finite x = true → PyFloat.ltb x PyFloat.inf = true.
Proof. destruct x as [s|s| |s m e]; try done; by destruct s. Qed.

Lemma sub_diag_finite s m e :
  PyFloat.sub (S754_finite s m e) (S754_finite s m e) = S754_zero false.
Proof.
  unfold PyFloat.sub, SFsub. by rewrite Z.sub_diag.
Qed.

(** Comparisons of an [int] with a [float]: 7 against 7.0 and 7.5. *)
Example int_ltb_examples :
  PyFloat.int_ltb 7 (PyFloat.of_int 7) = false
  ∧ PyFloat.int_ltb 6 (PyFloat.of_int 7) = true
  ∧ PyFloat.int_ltb 7 (SFdiv PyFloat.prec PyFloat.emax (PyFloat.of_int 15) (PyFloat.of_int 2))
    = true
  ∧ PyFloat.int_ltb 8 (SFdiv PyFloat.prec PyFloat.emax (PyFloat.of_int 15) (PyFloat.of_int 2))
    = false
  ∧ PyFloat.int_ltb (-8) (SFdiv PyFloat.prec PyFloat.emax (PyFloat.of_int (-15)) (PyFloat.of_int 2))
    = true.
Proof. vm_compute. done. Qed.

Example int_geb_examples :
  PyFloat.int_geb 7 (PyFloat.of_int 7) = true
  ∧ PyFloat.int_geb 6 (PyFloat.of_int 7) = false
  ∧ PyFloat.int_geb 7 (SFdiv PyFloat.prec PyFloat.emax (PyFloat.of_int 15) (PyFloat.of_int 2))
    = false
  ∧ PyFloat.int_geb 8 (SFdiv PyFloat.prec PyFloat.emax (PyFloat.of_int 15) (PyFloat.of_int 2))
    = true
  ∧ PyFloat.int_geb (-7) (SFdiv PyFloat.prec PyFloat.emax (PyFloat.of_int (-15)) (PyFloat.of_int 2))
    = true.
Proof. vm_compute. done. Qed.

(** The thresholds of the examples, in milliseconds. *)
Example thresholds_of_examples :
  Consumer.time_threshold Examples.settings0 Examples.now0
  = PyFloat.of_int 1699999700000
  ∧ Producer.threshold Examples.now0 = PyFloat.of_int 1699999100000.
Proof. vm_compute. done. Qed.

(** Against a threshold that is a number, [z >= x] is the negation of
  [z < x]. *)
Lemma int_geb_ltb z (x : float) :
  x ≠ S754_nan → PyFloat.int_geb z x = negb (PyFloat.int_ltb z x).
Proof.
  intros Hx. destruct x as [s|s| |s m e]; simpl.
  - apply Z.leb_antisym.
  - by destruct s.
  - done.
  - destruct (0 <=? e); apply Z.leb_antisym.
Qed.

Lemma int_geb_not_nan z (x : float) : PyFloat.int_geb z x = true → x ≠ S754_nan.
Proof. by intros H ->. Qed.

Lemma f87_5_exact :
  Examples.f87_5 = SFdiv PyFloat.prec PyFloat.emax (PyFloat.of_int 175) (PyFloat.of_int 2).
Proof. vm_compute. reflexivity. Qed.

(** ** Lists *)

Lemma filter_all {A} (P : A → Prop) `{!∀ x, Decision (P x)} (l : list A) :
  Forall P l → filter P l = l.
Proof.
  induction 1 as [|x l Hx _ IH]; [done|].
  by rewrite filter_cons, decide_True, IH.
Qed.

(** ** The growth computation *)

Section Growth.

Variable thr : float.
Hypothesis thr_not_nan : thr ≠ S754_nan.

Local Abbreviation fresh := (λ el : OpenInterestItem, Reference.passes thr el = true).

Lemma passes_true el :
  Reference.passes thr el = true ↔ PyFloat.int_ltb (oi_t el) thr = false.
Proof.
  unfold Reference.passes. rewrite int_geb_ltb by done. apply negb_true_iff.
Qed.

Lemma passes_not_true el :
  Reference.passes thr el ≠ true ↔ PyFloat.int_ltb (oi_t el) thr = true.
Proof.
  unfold Reference.passes. rewrite int_geb_ltb by done.
  by destruct (PyFloat.int_ltb _ _).
Qed.

Lemma loop_body_stale el l :
  PyFloat.int_ltb (oi_t el) thr = true → Consumer.loop_body thr el l = l.
Proof. intros H. unfold Consumer.loop_body. by rewrite H. Qed.

Lemma loop_body_step el l :
  PyFloat.int_ltb (oi_t el) thr = false →
  (Consumer._min (Consumer.loop_body thr el l),
   Consumer._max (Consumer.loop_body thr el l))
  = Reference.step (Consumer._min l, Consumer._max l) (oi_v el).
Proof.
  intros H. unfold Consumer.loop_body, Reference.step. rewrite H. simpl.
  destruct (PyFloat.ltb (oi_v el) (Consumer._min l)); simpl;
    by destruct (PyFloat.gtb (oi_v el) _).
Qed.

(** The loop skips what the time filter drops. *)
Lemma loop_filter w l :
  Consumer.loop thr w l = Consumer.loop thr (filter fresh w) l.
Proof.
  revert l. induction w as [|el w IH]; intros l; [done|].
  rewrite filter_cons. simpl.
  destruct (decide (fresh el)) as [Hf|Hf].
  - apply IH.
  - apply passes_not_true in Hf.
    rewrite loop_body_stale by done. apply IH.
Qed.

(** Its running min and max are those of the fold of the reference. *)
Lemma loop_min_max w l :
  (Consumer._min (Consumer.loop thr w l), Consumer._max (Consumer.loop thr w l))
  = foldl Reference.step (Consumer._min l, Consumer._max l)
          (oi_v <$> filter fresh w).
Proof.
  revert l. induction w as [|el w IH]; intros l; [done|].
  rewrite filter_cons. simpl.
  destruct (decide (fresh el)) as [Hf|Hf].
  - apply passes_true in Hf. simpl. rewrite IH.
    by rewrite loop_body_step.
  - apply passes_not_true in Hf.
    rewrite loop_body_stale by done. apply IH.
Qed.

Lemma loop_body_found el l :
  Consumer.found l = true → Consumer.found (Consumer.loop_body thr el l) = true.
Proof.
  intros H. unfold Consumer.loop_body.
  repeat (case_match; simpl); done.
Qed.

Lemma loop_found w l :
  Consumer.found l = true → Consumer.found (Consumer.loop thr w l) = true.
Proof.
  revert l. induction w as [|el w IH]; intros l H; [done|].
  simpl. by apply IH, loop_body_found.
Qed.

(** A finite sample that passes the filter is found when nothing was found
  before it. *)
Lemma loop_body_first el l :
  PyFloat.int_ltb (oi_t el) thr = false →
  PyFloat.is_finite (oi_v el) = true →
  Consumer._min l = PyFloat.inf →
  Consumer.found (Consumer.loop_body thr el l) = true.
Proof.
  intros H Hfin Hmin. unfold Consumer.loop_body. rewrite H, Hmin.
  rewrite finite_ltb_inf by done. simpl. by case_match.
Qed.

Lemma loop_nothing_fresh w l :
  filter fresh w = [] → Consumer.loop thr w l = l.
Proof. intros H. by rewrite loop_filter, H. Qed.

Lemma loop_found_fresh w l :
  Forall (λ el, fresh el → PyFloat.is_finite (oi_v el) = true) w →
  Consumer._min l = PyFloat.inf →
  filter fresh w ≠ [] →
  Consumer.found (Consumer.loop thr w l) = true.
Proof.
  revert l. induction w as [|el w IH]; intros l Hfin Hmin Hne; [done|].
  apply Forall_cons in Hfin as [Hel Hfin]. rewrite filter_cons in Hne. simpl.
  destruct (decide (fresh el)) as [Hf|Hf].
  - apply loop_found, loop_body_first; [|by apply Hel|done].
    by apply passes_true.
  - rewrite loop_body_stale; [by apply IH|].
    by apply passes_not_true.
Qed.

End Growth.

Lemma running_min_max_single (x : float) :
  PyFloat.is_finite x = true → Reference.running_min_max [x] = (x, x).
Proof.
  intros Hfin. unfold Reference.running_min_max. cbn [foldl].
  unfold Reference.step. cbn [fst]. rewrite finite_ltb_inf by done.
  unfold PyFloat.gtb. by rewrite ltb_irrefl.
Qed.

(** [(x - x) / x * 100] is a zero with the sign of [x], for a finite [x]
  that is not zero. *)
Lemma growth_of_equal s m e :
  PyFloat.mul
    (SFdiv PyFloat.prec PyFloat.emax
       (PyFloat.sub (S754_finite s m e) (S754_finite s m e)) (S754_finite s m e))
    (PyFloat.of_int 100)
  = S754_zero s.
Proof. rewrite sub_diag_finite. by destruct s. Qed.

(** The computation never raises. *)
Lemma _calculate_open_interest_returns settings now window :
  ∃ r, Consumer._calculate_open_interest settings now window = Return r.
Proof.
  unfold Consumer._calculate_open_interest, truediv.
  repeat case_match; simplify_eq; eauto.
Qed.

Lemma _calculate_open_interest_reference settings now window :
  Consumer.time_threshold settings now ≠ S754_nan →
  Forall (λ el, Reference.in_window settings now el = true →
                PyFloat.is_finite (oi_v el) = true) window →
  Consumer._calculate_open_interest settings now window
  = Return (Reference.growth settings now window).
Proof.
  intros Hthr Hfin. unfold Consumer._calculate_open_interest, Reference.growth.
  set (thr := Consumer.time_threshold settings now) in *.
  pose proof (loop_min_max thr Hthr window Consumer.locals_init) as Hmm.
  change (λ el, Reference.in_window settings now el = true)
    with (λ el, Reference.passes thr el = true) in *.
  destruct (filter _ window) as [|el samples] eqn:Hf.
  { by rewrite loop_nothing_fresh. }
  rewrite (loop_found_fresh thr Hthr window) by (done || by rewrite Hf).
  simpl negb. cbv iota. unfold Reference.running_min_max.
  change (foldl Reference.step _ _)
    with (foldl Reference.step (PyFloat.inf, PyFloat.neg_inf)
            (oi_v <$> el :: samples)) in Hmm.
  rewrite <- Hmm. unfold truediv.
  by destruct (PyFloat.is_zero _).
Qed.

(** C1. The growth computation of the detection loop is the single-pass
  algorithm of the specification: over the samples that pass the time
  filter, oldest first, with the running min starting at +infinity and the
  running max at -infinity, a value strictly below the min sets min and max
  to it, a value strictly above the max becomes the max, and the result is
  [(max - min) / min * 100] (for a threshold that is a number and windows
  whose samples in the lookback interval are finite numbers). Four samples in the lookback interval with
  the values 100, 80, 150, 90 give exactly 87.5. *)
Theorem growth_is_reference_algorithm :
  (∀ settings now window,
     Consumer.time_threshold settings now ≠ S754_nan →
     Forall (λ el, Reference.in_window settings now el = true →
                   PyFloat.is_finite (oi_v el) = true) window →
     Consumer._calculate_open_interest settings now window
     = Return (Reference.growth settings now window))
  ∧ (∀ settings now t0 t1 t2 t3,
       Forall (λ el, Reference.in_window settings now el = true)
         [Examples.item t0 100; Examples.item t1 80;
          Examples.item t2 150; Examples.item t3 90] →
       Consumer._calculate_open_interest settings now
         [Examples.item t0 100; Examples.item t1 80;
          Examples.item t2 150; Examples.item t3 90]
       = Return (Some Examples.f87_5)).
Proof.
  split; [apply _calculate_open_interest_reference|].
  intros settings now t0 t1 t2 t3 Hin.
  rewrite _calculate_open_interest_reference.
  - unfold Reference.growth. rewrite filter_all by done.
    vm_compute. reflexivity.
  - apply Forall_cons in Hin as [Hin _]. by apply int_geb_not_nan in Hin.
  - repeat (apply List.Forall_cons; [intros _; vm_compute; reflexivity|]).
    apply List.Forall_nil.
Qed.

Lemma growth_is_reference_algorithm_witness :
  Consumer._calculate_open_interest Examples.settings0 Examples.now0 Examples.window0
  = Return (Some Examples.f87_5).
Proof.
  apply (proj2 growth_is_reference_algorithm Examples.settings0 Examples.now0).
  repeat (apply List.Forall_cons; [vm_compute; reflexivity|]).
  apply List.Forall_nil.
Defined.

(** C7. When the samples in the lookback interval drive the running min of
  the loop to zero, the growth computation returns [None]: the
  [ZeroDivisionError] of the division is caught, nothing is raised. *)
Theorem zero_min_is_undefined settings now window :
  PyFloat.is_zero
    (Consumer._min (Consumer.loop (Consumer.time_threshold settings now)
                      window Consumer.locals_init)) = true →
  Consumer._calculate_open_interest settings now window = Return None.
Proof.
  intros Hz. unfold Consumer._calculate_open_interest, truediv.
  rewrite Hz. by destruct (Consumer.found _).
Qed.

Lemma zero_min_is_undefined_witness :
  Consumer._calculate_open_interest Examples.settings0 Examples.now0
    Examples.window_zero = Return None.
Proof.
  apply (zero_min_is_undefined Examples.settings0 Examples.now0 Examples.window_zero).
  vm_compute. reflexivity.
Defined.

(** ** The cooldown tracker *)

Lemma is_blocked_answer now key (tr : gmap string float) :
  (TimeoutTracker.is_blocked now key tr).1
  = match tr !! key with Some deadline => PyFloat.ltb now deadline | None => false end.
Proof. unfold TimeoutTracker.is_blocked. by repeat case_match. Qed.

Lemma is_blocked_entry now key (tr : gmap string float) :
  (TimeoutTracker.is_blocked now key tr).2 !! key
  = match tr !! key with
    | Some deadline => if PyFloat.ltb now deadline then Some deadline else None
    | None => None
    end.
Proof.
  unfold TimeoutTracker.is_blocked.
  repeat case_match; simpl; simplify_map_eq; done.
Qed.

Lemma is_blocked_other now key key' (tr : gmap string float) :
  key ≠ key' → (TimeoutTracker.is_blocked now key tr).2 !! key' = tr !! key'.
Proof.
  intros Hne. unfold TimeoutTracker.is_blocked.
  repeat case_match; simpl; simplify_map_eq; done.
Qed.

Lemma is_blocked_before_deadline now key deadline (tr : gmap string float) :
  tr !! key = Some deadline → PyFloat.ltb now deadline = true →
  TimeoutTracker.is_blocked now key tr = (true, tr).
Proof. intros H1 H2. unfold TimeoutTracker.is_blocked. by rewrite H1, H2. Qed.

Lemma block_entry now key duration (tr : gmap string float) :
  TimeoutTracker.block now key duration tr !! key
  = Some (PyFloat.add now (PyFloat.of_int duration)).
Proof. unfold TimeoutTracker.block. by simplify_map_eq. Qed.

Lemma block_other now key key' duration (tr : gmap string float) :
  key ≠ key' → TimeoutTracker.block now key duration tr !! key' = tr !! key'.
Proof. intros Hne. unfold TimeoutTracker.block. by simplify_map_eq. Qed.

(** ** The detection tick *)

Section Tick.

Variable exchange : Exchange.
Variable market_type : MarketType.

Local Abbreviation _process_symbol := (Detection._process_symbol exchange market_type).
Local Abbreviation visit := (Detection.visit exchange market_type).
Local Abbreviation for_symbols := (Detection.for_symbols exchange market_type).
Local Abbreviation _process := (Detection._process exchange market_type).
Local Abbreviation start := (Detection.start exchange market_type).
Local Abbreviation alert_for := (Detection.alert_for exchange market_type).

Lemma _process_symbol_returns settings now symbol klines ticker_daily :
  ∃ r, _process_symbol settings now symbol klines ticker_daily = Return r.
Proof.
  unfold Detection._process_symbol.
  destruct (_calculate_open_interest_returns settings now klines) as [r ->].
  simpl. repeat case_match; eauto.
Qed.

(** [_process_symbol] creates a task exactly for a growth that is defined,
  not zero, and above the threshold of the settings. *)
Lemma _process_symbol_task settings now symbol klines ticker_daily task :
  _process_symbol settings now symbol klines ticker_daily = Return (Some task)
  ↔ ∃ c, Consumer._calculate_open_interest settings now klines = Return (Some c)
       ∧ PyFloat.truthy c = true
       ∧ PyFloat.gtb c (min_growth_prct settings) = true
       ∧ task = {| task_bot_token := bot_token settings;
                   task_chat_id := chat_id settings;
                   task_text := create_text symbol c exchange market_type
                                  (td_p ticker_daily) (td_q ticker_daily) |}.
Proof.
  unfold Detection._process_symbol.
  destruct (Consumer._calculate_open_interest settings now klines)
    as [[c|]|e]; simpl.
  - destruct (PyFloat.truthy c) eqn:Ht, (PyFloat.gtb c _) eqn:Hg; simpl;
      (split; [intros ?; simplify_eq; eauto 6
              | intros (c' & ? & ? & ? & ?); simplify_eq; congruence]).
  - split; [done | intros (c' & ? & _); done].
  - split; [done | intros (c' & ? & _); done].
Qed.

Lemma _process_symbol_task_symbol settings now symbol klines ticker_daily task :
  _process_symbol settings now symbol klines ticker_daily = Return (Some task) →
  task_symbol task = symbol.
Proof.
  intros H. apply _process_symbol_task in H as (c & _ & _ & _ & ->). done.
Qed.

Lemma alert_for_symbol tk tracker symbol klines task :
  alert_for tk tracker symbol klines = Some task → task_symbol task = symbol.
Proof.
  unfold Detection.alert_for. repeat case_match; try done.
  intros ?; simplify_eq. by eapply _process_symbol_task_symbol.
Qed.

(** The task of a visit depends on the tracker through the entry of the
  symbol only. *)
Lemma alert_for_entry tk (tr tr' : gmap string float) symbol klines :
  tr !! symbol = tr' !! symbol →
  alert_for tk tr symbol klines = alert_for tk tr' symbol klines.
Proof.
  intros H. unfold Detection.alert_for. by rewrite !is_blocked_answer, H.
Qed.

(** What a visit does, in one equation. *)
Lemma visit_eq tk symbol klines tasks (tracker : gmap string float) :
  visit tk (symbol, klines) tasks tracker
  = (Return tt,
     tasks ++ option_list (alert_for tk tracker symbol klines),
     let tracker1 :=
       (TimeoutTracker.is_blocked (time_time tk symbol InIsBlocked) symbol tracker).2 in
     match alert_for tk tracker symbol klines with
     | Some _ => TimeoutTracker.block (time_time tk symbol InBlock) symbol
                   (timeout (tick_settings tk)) tracker1
     | None => tracker1
     end).
Proof.
  unfold Detection.visit, Detection.alert_for.
  destruct (TimeoutTracker.is_blocked _ symbol tracker) as [[] tracker1]; simpl.
  { by rewrite app_nil_r. }
  destruct (all_ticker_daily tk !! symbol) as [ticker_daily|]; simpl.
  2: { by rewrite app_nil_r. }
  destruct (_process_symbol_returns (tick_settings tk)
              (time_time tk symbol InCalculate) symbol klines ticker_daily)
    as [[task|] ->]; simpl; [done|by rewrite app_nil_r].
Qed.

Lemma visit_entry tk symbol klines tasks (tracker : gmap string float) :
  (visit tk (symbol, klines) tasks tracker).2 !! symbol
  = Detection.entry_after tk symbol (tracker !! symbol)
      (alert_for tk tracker symbol klines).
Proof.
  rewrite visit_eq. simpl. unfold Detection.entry_after.
  destruct (alert_for tk tracker symbol klines).
  - by rewrite block_entry.
  - by rewrite is_blocked_entry.
Qed.

Lemma visit_other tk symbol klines tasks (tracker : gmap string float) s :
  symbol ≠ s → (visit tk (symbol, klines) tasks tracker).2 !! s = tracker !! s.
Proof.
  intros Hne. rewrite visit_eq. simpl.
  destruct (alert_for tk tracker symbol klines).
  - by rewrite block_other, is_blocked_other.
  - by rewrite is_blocked_other.
Qed.

Lemma tasks_of_app s (l1 l2 : list Task) :
  Detection.tasks_of s (l1 ++ l2) = Detection.tasks_of s l1 ++ Detection.tasks_of s l2.
Proof. apply filter_app. Qed.

Lemma tasks_of_alert tk tracker symbol klines s :
  Detection.tasks_of s (option_list (alert_for tk tracker symbol klines))
  = if decide (symbol = s) then option_list (alert_for tk tracker symbol klines)
    else [].
Proof.
  destruct (alert_for tk tracker symbol klines) as [task|] eqn:Ha; simpl;
    [|by case_decide].
  apply alert_for_symbol in Ha. unfold Detection.tasks_of.
  rewrite filter_cons, filter_nil. rewrite Ha. by repeat case_decide.
Qed.

(** The loop over symbols that are pairwise distinct: it does not raise;
  for a symbol it visits, the tasks it adds and the entry it leaves are
  those of that visit alone; it leaves the other symbols alone. *)
Lemma for_symbols_eq tk items tasks (tracker : gmap string float) :
  NoDup items.*1 →
  ∃ new tracker',
    for_symbols tk items tasks tracker = (Return tt, tasks ++ new, tracker')
    ∧ (∀ s, s ∉ items.*1 →
         Detection.tasks_of s new = [] ∧ tracker' !! s = tracker !! s)
    ∧ (∀ s klines, (s, klines) ∈ items →
         Detection.tasks_of s new = option_list (alert_for tk tracker s klines)
         ∧ tracker' !! s
           = Detection.entry_after tk s (tracker !! s) (alert_for tk tracker s klines)).
Proof.
  revert tasks tracker.
  induction items as [|[symbol klines] rest IH]; intros tasks tracker Hnd.
  { exists [], tracker. rewrite app_nil_r. split_and!; [done|done|].
    intros s k Hin. by apply elem_of_nil in Hin. }
  rewrite fmap_cons in Hnd. apply NoDup_cons in Hnd as [Hfresh Hnd]. simpl in Hfresh.
  pose proof (visit_entry tk symbol klines tasks tracker) as Hentry.
  pose proof (visit_other tk symbol klines tasks tracker) as Hother.
  cbn [Detection.for_symbols]. rewrite visit_eq in *. cbn [snd] in Hentry, Hother.
  set (tracker1 := match alert_for tk tracker symbol klines with
                   | Some _ => _ | None => _ end) in *.
  destruct (IH (tasks ++ option_list (alert_for tk tracker symbol klines))
              tracker1 Hnd) as (new & tracker' & -> & Habsent & Hpresent).
  exists (option_list (alert_for tk tracker symbol klines) ++ new), tracker'.
  split_and!.
  - by rewrite app_assoc.
  - intros s Hs. rewrite fmap_cons, not_elem_of_cons in Hs. destruct Hs as [Hne Hs].
    simpl in Hne. rewrite tasks_of_app, tasks_of_alert, decide_False by done.
    destruct (Habsent s Hs) as [-> ->].
    split; [done|]. by apply Hother.
  - intros s k Hin. rewrite tasks_of_app, tasks_of_alert.
    apply elem_of_cons in Hin as [Heq|Hin].
    + simplify_eq. rewrite decide_True by done.
      destruct (Habsent symbol Hfresh) as [-> ->].
      by rewrite app_nil_r.
    + assert (symbol ≠ s) as Hne.
      { intros ->. apply Hfresh. apply list_elem_of_fmap. by exists (s, k). }
      rewrite decide_False by done.
      destruct (Hpresent s k Hin) as [-> ->].
      rewrite (alert_for_entry tk tracker1 tracker) by by apply Hother.
      by rewrite Hother.
Qed.

(** The tasks and the tracker of a tick are those of its loop, whatever
  awaiting the tasks gives. *)
Lemma _process_scan tk (tracker : gmap string float) :
  (_process tk tracker).1.2
  = (for_symbols tk (map_to_list (all_klines tk)) [] tracker).1.2
  ∧ (_process tk tracker).2
    = (for_symbols tk (map_to_list (all_klines tk)) [] tracker).2.
Proof.
  unfold Detection._process.
  destruct (for_symbols _ _ _ _) as [[[] tasks] tr]; simpl; [|done].
  by destruct tasks.
Qed.

(** A tick, symbol by symbol. *)
Lemma _process_eq tk (tracker : gmap string float) s :
  Detection.tasks_of s (_process tk tracker).1.2
  = match all_klines tk !! s with
    | Some klines => option_list (alert_for tk tracker s klines)
    | None => []
    end
  ∧ (_process tk tracker).2 !! s
    = match all_klines tk !! s with
      | Some klines =>
          Detection.entry_after tk s (tracker !! s) (alert_for tk tracker s klines)
      | None => tracker !! s
      end.
Proof.
  destruct (_process_scan tk tracker) as [-> ->].
  destruct (for_symbols_eq tk (map_to_list (all_klines tk)) [] tracker)
    as (new & tracker' & -> & Habsent & Hpresent).
  { apply NoDup_fst_map_to_list. }
  simpl. destruct (all_klines tk !! s) as [klines|] eqn:Hs.
  - apply elem_of_map_to_list in Hs. by apply Hpresent.
  - apply Habsent. intros Hin. apply list_elem_of_fmap in Hin as ([s' k] & -> & Hin).
    apply elem_of_map_to_list in Hin. simpl in Hs. congruence.
Qed.

Lemma start_single tk (tracker : gmap string float) :
  is_ready (tick_settings tk) = true →
  start [tk] tracker = ([(_process tk tracker).1.2], (_process tk tracker).2).
Proof.
  intros Hr. simpl. rewrite Hr. simpl.
  destruct (_process tk tracker) as [[[] tasks] tracker1]; done.
Qed.

Lemma tasks_of_nonempty symbol (tasks : list Task) :
  (∃ task, task ∈ tasks ∧ task_symbol task = symbol)
  ↔ Detection.tasks_of symbol tasks ≠ [].
Proof.
  unfold Detection.tasks_of. split.
  - intros (task & Hin & Hs) Hnil.
    assert (task ∈ filter (λ task, task_symbol task = symbol) tasks) as Hf
      by by apply list_elem_of_filter.
    rewrite Hnil in Hf. by apply elem_of_nil in Hf.
  - destruct (filter _ tasks) as [|task l] eqn:Hf; [done|]. intros _.
    assert (task ∈ filter (λ task, task_symbol task = symbol) tasks) as Hin
      by (rewrite Hf; left).
    apply list_elem_of_filter in Hin as [? ?]. eauto.
Qed.

(** The visit of a symbol creates a task exactly when the symbol is not
  blocked, has a daily-ticker entry, and its growth is defined, not zero,
  and above the threshold. *)
Lemma alert_for_is_Some tk (tracker : gmap string float) symbol klines :
  is_Some (alert_for tk tracker symbol klines)
  ↔ (TimeoutTracker.is_blocked (time_time tk symbol InIsBlocked) symbol tracker).1
      = false
    ∧ is_Some (all_ticker_daily tk !! symbol)
    ∧ ∃ c, Consumer._calculate_open_interest (tick_settings tk)
             (time_time tk symbol InCalculate) klines = Return (Some c)
         ∧ PyFloat.truthy c = true
         ∧ PyFloat.gtb c (min_growth_prct (tick_settings tk)) = true.
Proof.
  unfold Detection.alert_for.
  destruct (TimeoutTracker.is_blocked _ symbol tracker).1.
  { split; [by intros [? ?]|by intros [? _]]. }
  destruct (all_ticker_daily tk !! symbol) as [ticker_daily|].
  2: { split; [by intros [? ?]|by intros (_ & [? ?] & _)]. }
  destruct (_process_symbol _ _ symbol klines ticker_daily) as [[task|]|e] eqn:Hp.
  - apply _process_symbol_task in Hp as (c & ? & ? & ? & _).
    split; [intros _|by eexists].
    split; [done|]. split; [by eexists|]. by exists c.
  - split; [by intros [? ?]|]. intros (_ & _ & c & Hc & Ht & Hg).
    assert (∃ task, _process_symbol (tick_settings tk)
              (time_time tk symbol InCalculate) symbol klines ticker_daily
              = Return (Some task)) as [task Hp'].
    { eexists. apply _process_symbol_task. eauto. }
    congruence.
  - destruct (_process_symbol_returns (tick_settings tk)
                (time_time tk symbol InCalculate) symbol klines ticker_daily)
      as [r Hr]. congruence.
Qed.

(** C4 (amended). On a tick with ready settings, for a symbol of the window
  snapshot, a notification task is created exactly when the symbol is not
  blocked, a daily-ticker entry exists for it, and its growth is defined,
  not zero, and strictly above [min_growth_prct]. When a task is created the
  cooldown of the symbol is armed; when none is, the entry of the symbol in
  the tracker is the one the [is_blocked] check left (unchanged, or evicted
  because it had expired). *)
Theorem alert_iff_qualified tk (tracker : gmap string float) symbol klines :
  is_ready (tick_settings tk) = true →
  all_klines tk !! symbol = Some klines →
  ∃ tasks tracker',
    start [tk] tracker = ([tasks], tracker')
    ∧ ((∃ task, task ∈ tasks ∧ task_symbol task = symbol)
       ↔ (TimeoutTracker.is_blocked (time_time tk symbol InIsBlocked) symbol tracker).1
           = false
         ∧ is_Some (all_ticker_daily tk !! symbol)
         ∧ ∃ c, Consumer._calculate_open_interest (tick_settings tk)
                  (time_time tk symbol InCalculate) klines = Return (Some c)
              ∧ PyFloat.truthy c = true
              ∧ PyFloat.gtb c (min_growth_prct (tick_settings tk)) = true)
    ∧ ((∃ task, task ∈ tasks ∧ task_symbol task = symbol) →
       tracker' !! symbol = Some (Detection.armed_deadline tk symbol))
    ∧ (¬ (∃ task, task ∈ tasks ∧ task_symbol task = symbol) →
       tracker' !! symbol
       = (TimeoutTracker.is_blocked (time_time tk symbol InIsBlocked) symbol tracker).2
           !! symbol).
Proof.
  intros Hready Hklines. eexists _, _. split; [by apply start_single|].
  rewrite tasks_of_nonempty, <- alert_for_is_Some.
  destruct (_process_eq tk tracker symbol) as [Ht He].
  rewrite Hklines in Ht, He. rewrite Ht, He, is_blocked_entry.
  destruct (alert_for tk tracker symbol klines) as [task|]; simpl.
  - split_and!.
    + split; [by eexists|done].
    + done.
    + intros Hnot. by destruct Hnot.
  - split_and!.
    + split; [done|by intros [? ?]].
    + done.
    + done.
Qed.

(** C8. When exactly one sample of the window lies in the lookback interval,
  and its value is finite and not zero, the growth is zero (min = max =
  that value), returned as a value and not raised; and the tick creates no
  task for the symbol. *)
Theorem single_sample_is_zero_growth tk (tracker : gmap string float)
    symbol klines el s m e :
  all_klines tk !! symbol = Some klines →
  filter (λ el, Reference.in_window (tick_settings tk)
                  (time_time tk symbol InCalculate) el = true) klines = [el] →
  oi_v el = S754_finite s m e →
  Consumer._calculate_open_interest (tick_settings tk)
    (time_time tk symbol InCalculate) klines = Return (Some (S754_zero s))
  ∧ ∀ task, task ∈ (_process tk tracker).1.2 → task_symbol task ≠ symbol.
Proof.
  intros Hklines Hone Hv.
  assert (Consumer._calculate_open_interest (tick_settings tk)
            (time_time tk symbol InCalculate) klines
          = Return (Some (S754_zero s))) as Hcalc.
  { assert (el ∈ filter (λ el, Reference.in_window (tick_settings tk)
                            (time_time tk symbol InCalculate) el = true) klines)
      as Hpass by (rewrite Hone; left).
    apply list_elem_of_filter in Hpass as [Hpass _].
    rewrite _calculate_open_interest_reference.
    - unfold Reference.growth. rewrite Hone.
      change (oi_v <$> [el]) with [oi_v el].
      rewrite Hv, running_min_max_single by done.
      cbv iota beta. cbn [PyFloat.is_zero]. by rewrite growth_of_equal.
    - by apply int_geb_not_nan in Hpass.
    - apply Forall_forall. intros el' Hin Hw.
      assert (el' ∈ [el]) as Hel.
      { rewrite <- Hone. by apply list_elem_of_filter. }
      apply list_elem_of_singleton in Hel as ->. by rewrite Hv. }
  split; [done|]. intros task Hin Hs.
  assert (Detection.tasks_of symbol (_process tk tracker).1.2 ≠ []) as Hne.
  { apply tasks_of_nonempty. eauto. }
  destruct (_process_eq tk tracker symbol) as [Ht _].
  rewrite Hklines in Ht. rewrite Ht in Hne.
  destruct (alert_for tk tracker symbol klines) as [task'|] eqn:Ha; [|done].
  assert (is_Some (alert_for tk tracker symbol klines)) as Hsome by by rewrite Ha.
  apply alert_for_is_Some in Hsome as (_ & _ & c & Hc & Htruthy & _).
  rewrite Hcalc in Hc. by simplify_eq.
Qed.

End Tick.

Lemma alert_iff_qualified_witness :
  ∃ tasks tracker',
    Detection.start BINANCE FUTURES [Examples.tick_spike] ∅ = ([tasks], tracker')
    ∧ (∃ task, task ∈ tasks ∧ task_symbol task = "XYZ")
    ∧ tracker' !! "XYZ" = Some (Detection.armed_deadline Examples.tick_spike "XYZ").
Proof.
  destruct (alert_iff_qualified BINANCE FUTURES Examples.tick_spike ∅ "XYZ"
              [Examples.item 1699999910000 1000; Examples.item 1699999990000 1300])
    as (tasks & tracker' & Hstart & Hiff & Harmed & _).
  - reflexivity.
  - vm_compute. reflexivity.
  - exists tasks, tracker'. split; [exact Hstart|].
    assert (∃ task, task ∈ tasks ∧ task_symbol task = "XYZ") as Hex.
    { apply Hiff. split; [vm_compute; reflexivity|].
      split; [by eexists|]. eexists. split; [vm_compute; reflexivity|].
      split; vm_compute; reflexivity. }
    split; [exact Hex|]. by apply Harmed.
Defined.

(** The statement of C4 without the truth-value test fails: with one sample
  in the lookback interval the growth is 0.0, which is above a threshold of
  -1, the symbol is not blocked and has a daily-ticker entry, and yet the
  tick creates no task. *)
Lemma alert_zero_growth_counterexample :
  (TimeoutTracker.is_blocked (time_time Examples.tick_flat "XYZ" InIsBlocked) "XYZ" ∅).1
    = false
  ∧ is_Some (all_ticker_daily Examples.tick_flat !! "XYZ")
  ∧ (∃ c, Consumer._calculate_open_interest (tick_settings Examples.tick_flat)
            (time_time Examples.tick_flat "XYZ" InCalculate)
            [Examples.item 1699999990000 50] = Return (Some c)
        ∧ PyFloat.gtb c (min_growth_prct (tick_settings Examples.tick_flat)) = true)
  ∧ all_klines Examples.tick_flat !! "XYZ" = Some [Examples.item 1699999990000 50]
  ∧ Detection.start BINANCE FUTURES [Examples.tick_flat] ∅ = ([[]], ∅).
Proof.
  split_and!; try (vm_compute; reflexivity).
  - by eexists.
  - eexists. split; vm_compute; reflexivity.
Qed.

Lemma single_sample_is_zero_growth_witness :
  Consumer._calculate_open_interest (tick_settings Examples.tick_flat)
    (time_time Examples.tick_flat "XYZ" InCalculate)
    [Examples.item 1699999990000 50] = Return (Some (S754_zero false))
  ∧ ∀ task, task ∈ (Detection._process BINANCE FUTURES Examples.tick_flat ∅).1.2 →
            task_symbol task ≠ "XYZ".
Proof.
  apply (single_sample_is_zero_growth BINANCE FUTURES Examples.tick_flat ∅ "XYZ"
           [Examples.item 1699999990000 50] (Examples.item 1699999990000 50)
           false 7036874417766400 (-47)).
  - vm_compute. reflexivity.
  - vm_compute. reflexivity.
  - vm_compute. reflexivity.
Defined.

(** ** The cooldown across ticks *)

Section Cooldown.

Variable exchange : Exchange.
Variable market_type : MarketType.

Local Abbreviation for_symbols := (Detection.for_symbols exchange market_type).
Local Abbreviation _process := (Detection._process exchange market_type).
Local Abbreviation start := (Detection.start exchange market_type).
Local Abbreviation alert_for := (Detection.alert_for exchange market_type).

(** A tick that finds the symbol blocked creates no task for it and keeps
  its deadline. *)
Lemma _process_while_blocked tk (tracker : gmap string float) symbol deadline :
  tracker !! symbol = Some deadline →
  PyFloat.ltb (time_time tk symbol InIsBlocked) deadline = true →
  Detection.tasks_of symbol (_process tk tracker).1.2 = []
  ∧ (_process tk tracker).2 !! symbol = Some deadline.
Proof.
  intros Hentry Hlt.
  destruct (_process_eq exchange market_type tk tracker symbol) as [-> ->].
  destruct (all_klines tk !! symbol) as [klines|]; [|done].
  assert (alert_for tk tracker symbol klines = None) as ->.
  { unfold Detection.alert_for. by rewrite is_blocked_answer, Hentry, Hlt. }
  simpl. by rewrite Hentry, Hlt.
Qed.

Lemma start_while_blocked ticks (tracker : gmap string float) symbol deadline :
  tracker !! symbol = Some deadline →
  Forall (λ tk, PyFloat.ltb (time_time tk symbol InIsBlocked) deadline = true) ticks →
  Forall (λ tasks, Detection.tasks_of symbol tasks = []) (start ticks tracker).1
  ∧ (start ticks tracker).2 !! symbol = Some deadline.
Proof.
  intros Hentry Hticks. revert tracker Hentry.
  induction Hticks as [|tk ticks Hlt _ IH]; intros tracker Hentry; [done|].
  simpl. destruct (negb (is_ready (tick_settings tk))).
  - destruct (IH tracker Hentry) as [Hlog Hfinal].
    destruct (start ticks tracker) as [log tracker']. simpl in *.
    split; [|done]. by apply Forall_cons.
  - destruct (_process_while_blocked tk tracker symbol deadline Hentry Hlt)
      as [Hnone Hkept].
    destruct (_process tk tracker) as [[o tasks] tracker1]. simpl in *.
    destruct o as [r|].
    + destruct (IH tracker1 Hkept) as [Hlog Hfinal].
      destruct (start ticks tracker1) as [log tracker']. simpl in *.
      split; [|done]. by apply Forall_cons.
    + simpl. split; [|done]. by apply Forall_singleton.
Qed.

(** A tick that creates a task for a symbol creates one, and arms its
  cooldown. *)
Lemma _process_alert_armed tk (tracker : gmap string float) symbol :
  (∃ task, task ∈ (_process tk tracker).1.2 ∧ task_symbol task = symbol) →
  (∃ task, Detection.tasks_of symbol (_process tk tracker).1.2 = [task])
  ∧ (_process tk tracker).2 !! symbol = Some (Detection.armed_deadline tk symbol).
Proof.
  intros Hex. apply tasks_of_nonempty in Hex.
  destruct (_process_eq exchange market_type tk tracker symbol) as [Ht He].
  rewrite Ht in Hex. rewrite Ht, He.
  destruct (all_klines tk !! symbol) as [klines|]; [|done].
  destruct (alert_for tk tracker symbol klines) as [task|]; [|done].
  split; [by exists task|done].
Qed.

(** C2. Once a tick creates a notification task for a symbol and arms its
  cooldown, no tick that follows while the clock reads less than the armed
  deadline creates a task for that symbol, whatever the windows, the daily
  tickers and the settings of those ticks are; and the arming tick itself
  creates one task for it. *)
Theorem no_second_alert_within_cooldown tk ticks (tracker : gmap string float) symbol :
  is_ready (tick_settings tk) = true →
  (∃ task, task ∈ (_process tk tracker).1.2 ∧ task_symbol task = symbol) →
  Forall (λ tk', PyFloat.ltb (time_time tk' symbol InIsBlocked)
                   (Detection.armed_deadline tk symbol) = true) ticks →
  ∃ later,
    (start (tk :: ticks) tracker).1 = (_process tk tracker).1.2 :: later
    ∧ (∃ task, Detection.tasks_of symbol (_process tk tracker).1.2 = [task])
    ∧ Forall (λ tasks, Detection.tasks_of symbol tasks = []) later.
Proof.
  intros Hready Halert Hticks.
  destruct (_process_alert_armed tk tracker symbol Halert) as [Hone Harmed].
  destruct (start_while_blocked ticks (_process tk tracker).2 symbol _ Harmed Hticks)
    as [Hlater _].
  cbn [Detection.start]. rewrite Hready. cbn [negb].
  destruct (_process tk tracker) as [[o tasks] tracker1]. simpl in *.
  destruct o as [r|].
  - destruct (start ticks tracker1) as [log tracker']. simpl in *. eauto.
  - exists []. simpl. eauto.
Qed.

Lemma for_symbols_with_send tk send items tasks (tracker : gmap string float) :
  for_symbols (Detection.with_send tk send) items tasks tracker
  = for_symbols tk items tasks tracker.
Proof.
  revert tasks tracker. induction items as [|[symbol klines] rest IH];
    intros tasks tracker; [done|].
  cbn [Detection.for_symbols].
  change (Detection.visit exchange market_type (Detection.with_send tk send)
            (symbol, klines) tasks tracker)
    with (Detection.visit exchange market_type tk (symbol, klines) tasks tracker).
  destruct (Detection.visit _ _ tk _ tasks tracker) as [[[] tasks1] tracker1];
    [apply IH|done].
Qed.

(** C10. The cooldown of a symbol is armed in the loop that creates its
  notification task, before the tasks are awaited: the tasks and the tracker
  that a tick leaves do not depend on what becomes of the notifications
  (sent, failed, or never completed), and every symbol with a task is
  blocked at every clock reading before its deadline. *)
Theorem cooldown_armed_before_send tk send (tracker : gmap string float) task :
  task ∈ (_process tk tracker).1.2 →
  (_process (Detection.with_send tk send) tracker).1.2 = (_process tk tracker).1.2
  ∧ (_process (Detection.with_send tk send) tracker).2 = (_process tk tracker).2
  ∧ (_process tk tracker).2 !! task_symbol task
    = Some (Detection.armed_deadline tk (task_symbol task))
  ∧ ∀ now,
      PyFloat.ltb now (Detection.armed_deadline tk (task_symbol task)) = true →
      TimeoutTracker.is_blocked now (task_symbol task) (_process tk tracker).2
      = (true, (_process tk tracker).2).
Proof.
  intros Hin.
  destruct (_process_scan exchange market_type (Detection.with_send tk send) tracker)
    as [-> ->].
  destruct (_process_scan exchange market_type tk tracker) as [Ht1 Ht2].
  rewrite for_symbols_with_send. cbn [Detection.with_send all_klines].
  split_and!; [done|done| |].
  - apply _process_alert_armed. eauto.
  - intros now Hlt. apply is_blocked_before_deadline with
      (deadline := Detection.armed_deadline tk (task_symbol task)); [|done].
    apply _process_alert_armed. eauto.
Qed.

End Cooldown.

Lemma no_second_alert_within_cooldown_witness :
  ∃ later,
    (Detection.start BINANCE FUTURES
       [Examples.tick_spike; Examples.tick_spike_again] ∅).1
    = (Detection._process BINANCE FUTURES Examples.tick_spike ∅).1.2 :: later
    ∧ (∃ task, Detection.tasks_of "XYZ"
                 (Detection._process BINANCE FUTURES Examples.tick_spike ∅).1.2
               = [task])
    ∧ Forall (λ tasks, Detection.tasks_of "XYZ" tasks = []) later.
Proof.
  apply (no_second_alert_within_cooldown BINANCE FUTURES Examples.tick_spike
           [Examples.tick_spike_again] ∅ "XYZ").
  - reflexivity.
  - eexists. split; [vm_compute; left|vm_compute; reflexivity].
  - apply List.Forall_cons; [vm_compute; reflexivity|apply List.Forall_nil].
Defined.

Lemma cooldown_armed_before_send_witness :
  ∃ task,
    (Detection._process BINANCE FUTURES
       (Detection.with_send Examples.tick_spike Examples.hanging) ∅).1.2 = [task]
    ∧ (Detection._process BINANCE FUTURES
         (Detection.with_send Examples.tick_spike Examples.hanging) ∅).1.1 = Pending
    ∧ (Detection._process BINANCE FUTURES
         (Detection.with_send Examples.tick_spike Examples.hanging) ∅).2 !! "XYZ"
      = Some (Detection.armed_deadline Examples.tick_spike "XYZ").
Proof.
  eexists.
  destruct (cooldown_armed_before_send BINANCE FUTURES Examples.tick_spike
              Examples.hanging ∅
              {| task_bot_token := "token"; task_chat_id := "chat";
                 task_text := create_text "XYZ"
                   (S754_finite false 8444249301319680 (-48)) BINANCE FUTURES
                   (PyFloat.of_int 2) (PyFloat.of_int 1000000) |})
    as (Htasks & Htracker & Harmed & _).
  - vm_compute. left.
  - rewrite Htasks, Htracker. split; [vm_compute; reflexivity|].
    split; [vm_compute; reflexivity|exact Harmed].
Defined.

(** ** The sliding-window store *)

Section Merge.

Variable thr : float.

Local Abbreviation kept := (filter (λ el : OpenInterestItem, Producer.retained thr el = true)).

Lemma merge_item_eq (store : gmap string (list OpenInterestItem)) ticker item :
  Producer.merge_item thr store (ticker, item)
  = <[ticker := kept (store !!! ticker) ++ [item]]> store.
Proof.
  unfold Producer.merge_item. simpl.
  by rewrite lookup_total_insert_eq, insert_insert_eq.
Qed.

Lemma merge_items_absent items (store : gmap string (list OpenInterestItem)) s :
  s ∉ items.*1 → foldl (Producer.merge_item thr) store items !! s = store !! s.
Proof.
  revert store. induction items as [|[ticker item] rest IH]; intros store Hs; [done|].
  rewrite fmap_cons, not_elem_of_cons in Hs. destruct Hs as [Hne Hs]. simpl in Hne.
  cbn [foldl]. rewrite IH by done. rewrite merge_item_eq.
  by rewrite lookup_insert_ne.
Qed.

Lemma merge_items_present items (store : gmap string (list OpenInterestItem)) s item :
  NoDup items.*1 → (s, item) ∈ items →
  foldl (Producer.merge_item thr) store items !! s
  = Some (kept (store !!! s) ++ [item]).
Proof.
  revert store. induction items as [|[ticker item'] rest IH]; intros store Hnd Hin.
  { by apply elem_of_nil in Hin. }
  rewrite fmap_cons in Hnd. apply NoDup_cons in Hnd as [Hfresh Hnd]. simpl in Hfresh.
  cbn [foldl]. apply elem_of_cons in Hin as [Heq|Hin].
  - simplify_eq. rewrite merge_items_absent by done.
    rewrite merge_item_eq. by rewrite lookup_insert_eq.
  - assert (ticker ≠ s) as Hne.
    { intros ->. apply Hfresh. apply list_elem_of_fmap. by exists (s, item). }
    rewrite IH by done. rewrite merge_item_eq.
    by rewrite lookup_total_insert_ne.
Qed.

End Merge.

Lemma _process_snapshot_absent now snapshot
    (store : gmap string (list OpenInterestItem)) s :
  snapshot !! s = None →
  Producer._process_snapshot now snapshot store !! s = store !! s.
Proof.
  intros Hs. unfold Producer._process_snapshot. apply merge_items_absent.
  intros Hin. apply list_elem_of_fmap in Hin as ([s' item] & -> & Hin).
  apply elem_of_map_to_list in Hin. simpl in Hs. congruence.
Qed.

Lemma _process_snapshot_present now snapshot
    (store : gmap string (list OpenInterestItem)) s item :
  snapshot !! s = Some item →
  Producer._process_snapshot now snapshot store !! s
  = Some (filter (λ el, Producer.retained (Producer.threshold now) el = true)
            (store !!! s) ++ [item]).
Proof.
  intros Hs. unfold Producer._process_snapshot. apply merge_items_present.
  - apply NoDup_fst_map_to_list.
  - by apply elem_of_map_to_list.
Qed.

(** C9. A merge changes the entries of the symbols of the snapshot only:
  the sequence of a symbol that is not in the snapshot is unchanged, and
  the new sequence of a symbol of the snapshot is the prior samples that
  survive, in their order, followed by the new item. *)
Theorem merge_frame now snapshot (store : gmap string (list OpenInterestItem)) :
  (∀ s, snapshot !! s = None →
        Producer._process_snapshot now snapshot store !! s = store !! s)
  ∧ (∀ s item, snapshot !! s = Some item →
       ∃ survivors,
         Producer._process_snapshot now snapshot store !! s
         = Some (survivors ++ [item])
         ∧ survivors `sublist_of` (store !!! s)).
Proof.
  split.
  - intros s. apply _process_snapshot_absent.
  - intros s item Hs. eexists. split; [by apply _process_snapshot_present|].
    apply sublist_filter.
Qed.

Lemma merge_frame_witness :
  Producer._process_snapshot Examples.now0 Examples.snapshot0 Examples.store1 !! "OLD"
  = Some [Examples.item 1000 5]
  ∧ ∃ survivors,
      Producer._process_snapshot Examples.now0 Examples.snapshot0 Examples.store1 !! "XYZ"
      = Some (survivors ++ [Examples.item 1699999995000 7])
      ∧ survivors `sublist_of` [Examples.item 1000 5; Examples.item 1699999990000 6].
Proof.
  destruct (merge_frame Examples.now0 Examples.snapshot0 Examples.store1)
    as [Habsent Hpresent].
  split.
  - rewrite (Habsent "OLD"); vm_compute; reflexivity.
  - apply (Hpresent "XYZ" (Examples.item 1699999995000 7)).
    vm_compute. reflexivity.
Defined.

(** C3 (amended). After a merge, for every symbol of the snapshot, every
  sample kept from the prior sequence of the symbol has a timestamp at or
  above the threshold [(now - 900) * 1000], 900 seconds being the retention
  horizon; the new item follows them, whatever its timestamp is. *)
Theorem merge_prunes_symbols_of_snapshot now snapshot
    (store : gmap string (list OpenInterestItem)) s item :
  snapshot !! s = Some item →
  ∃ survivors,
    Producer._process_snapshot now snapshot store !! s = Some (survivors ++ [item])
    ∧ Forall (λ el, PyFloat.int_geb (oi_t el) (Producer.threshold now) = true)
        survivors
    ∧ Producer.threshold now
      = PyFloat.mul (PyFloat.sub now (PyFloat.of_int 900)) (PyFloat.of_int 1000).
Proof.
  intros Hs. eexists. split; [by apply _process_snapshot_present|].
  split; [|done]. apply Forall_forall. intros el Hin.
  by apply list_elem_of_filter in Hin as [? _].
Qed.

Lemma merge_prunes_symbols_of_snapshot_witness :
  ∃ survivors,
    Producer._process_snapshot Examples.now0 Examples.snapshot0 Examples.store0 !! "XYZ"
    = Some (survivors ++ [Examples.item 1699999995000 7])
    ∧ Forall (λ el, PyFloat.int_geb (oi_t el) (Producer.threshold Examples.now0) = true)
        survivors
    ∧ Producer.threshold Examples.now0
      = PyFloat.mul (PyFloat.sub Examples.now0 (PyFloat.of_int 900)) (PyFloat.of_int 1000).
Proof.
  apply (merge_prunes_symbols_of_snapshot Examples.now0 Examples.snapshot0
           Examples.store0 "XYZ" (Examples.item 1699999995000 7)).
  vm_compute. reflexivity.
Defined.

(** The statement of C3 for every symbol and every retained sample fails:
  after the merge of [snapshot_stale] into [store_stale] at [now0], the
  store holds a sample of a symbol that is not in the snapshot, and the
  item just appended, both with a timestamp below the threshold. *)
Lemma merge_keeps_stale_counterexample :
  Producer._process_snapshot Examples.now0 Examples.snapshot_stale Examples.store_stale
  = {[ "OLD" := [Examples.item 1000 5]; "XYZ" := [Examples.item 2000 7] ]}
  ∧ PyFloat.int_geb 1000 (Producer.threshold Examples.now0) = false
  ∧ PyFloat.int_geb 2000 (Producer.threshold Examples.now0) = false.
Proof.
  split_and!; vm_compute; reflexivity.
Qed.

(** ** The batched fetch *)

Section Batched.

Variable client : Producer.IUniClient.

Lemma record_response_lookup
    (pairs : list (string * result (option OpenInterestItem)))
    (results : gmap string OpenInterestItem) s r :
  NoDup pairs.*1 →
  foldl Producer.record_response results pairs !! s = Some r
  ↔ (s, Return (Some r)) ∈ pairs
    ∨ (results !! s = Some r ∧ ∀ r', (s, Return (Some r')) ∉ pairs).
Proof.
  revert results. induction pairs as [|[ticker response] rest IH];
    intros results Hnd.
  { simpl. split.
    - intros H. right. split; [done|]. intros r' Hin. by apply elem_of_nil in Hin.
    - intros [H|[H _]]; [by apply elem_of_nil in H|done]. }
  rewrite fmap_cons in Hnd. apply NoDup_cons in Hnd as [Hfresh Hnd]. simpl in Hfresh.
  assert (∀ x, (ticker, x) ∉ rest) as Hrest.
  { intros x Hin. apply Hfresh. apply list_elem_of_fmap. by exists (ticker, x). }
  cbn [foldl]. rewrite IH by done. unfold Producer.record_response. simpl.
  setoid_rewrite elem_of_cons.
  destruct response as [[response|]|e].
  - destruct (decide (s = ticker)) as [->|Hne].
    + rewrite lookup_insert_eq. split.
      * intros [Hin|[Heq _]]; [by apply Hrest in Hin|]. simplify_eq. by left; left.
      * intros [[Heq|Hin]|[_ Hno]]; [|by apply Hrest in Hin|].
        -- simplify_eq. right. split; [done|]. intros r'. apply Hrest.
        -- exfalso. apply (Hno response). by left.
    + rewrite lookup_insert_ne by done. split.
      * intros [Hin|[Hres Hno]]; [by left; right|]. right. split; [done|].
        intros r' [Heq|Hin]; [by simplify_eq|by apply (Hno r')].
      * intros [[Heq|Hin]|[Hres Hno]]; [by simplify_eq|by left|]. right.
        split; [done|]. intros r' Hin. apply (Hno r'). by right.
  - split.
    + intros [Hin|[Hres Hno]]; [by left; right|]. right. split; [done|].
      intros r' [Heq|Hin]; [by simplify_eq|by apply (Hno r')].
    + intros [[Heq|Hin]|[Hres Hno]]; [by simplify_eq|by left|]. right.
      split; [done|]. intros r' Hin. apply (Hno r'). by right.
  - split.
    + intros [Hin|[Hres Hno]]; [by left; right|]. right. split; [done|].
      intros r' [Heq|Hin]; [by simplify_eq|by apply (Hno r')].
    + intros [[Heq|Hin]|[Hres Hno]]; [by simplify_eq|by left|]. right.
      split; [done|]. intros r' Hin. apply (Hno r'). by right.
Qed.

(** The loop over the chunks records the requests of all chunks, one after
  the other: no outcome of a request ends the loop. *)
Lemma for_chunks_requests c chunks (results : gmap string OpenInterestItem) :
  Producer.for_chunks client c chunks results
  = foldl Producer.record_response results (Producer.requests client c chunks).
Proof.
  revert c results. induction chunks as [|chunk rest IH]; intros c results; [done|].
  simpl. by rewrite foldl_app, IH.
Qed.

Lemma zip_gather_fst c chunk :
  (zip chunk (Producer.gather_responses client c chunk)).*1 = chunk.
Proof.
  apply fst_zip. unfold Producer.gather_responses. by rewrite length_imap.
Qed.

Lemma requests_fst c chunks :
  (Producer.requests client c chunks).*1 = concat chunks.
Proof.
  revert c. induction chunks as [|chunk rest IH]; intros c; [done|].
  simpl. by rewrite fmap_app, zip_gather_fst, IH.
Qed.

Lemma elem_of_zip_gather c chunk s response :
  (s, response) ∈ zip chunk (Producer.gather_responses client c chunk)
  ↔ ∃ i, chunk !! i = Some s ∧ response = Producer.open_interest client c i s.
Proof.
  rewrite list_elem_of_lookup. unfold Producer.gather_responses.
  split.
  - intros [i Hi]. apply lookup_zip_Some in Hi as [Hs Hr].
    rewrite list_lookup_imap, Hs in Hr. simpl in Hr. exists i. by simplify_eq.
  - intros (i & Hs & ->). exists i. apply lookup_zip_Some.
    split; [done|]. by rewrite list_lookup_imap, Hs.
Qed.

Lemma elem_of_requests c0 chunks s response :
  (s, response) ∈ Producer.requests client c0 chunks
  ↔ ∃ (c i : nat) chunk,
      chunks !! c = Some chunk ∧ chunk !! i = Some s
      ∧ response = Producer.open_interest client (c0 + c)%nat i s.
Proof.
  revert c0. induction chunks as [|chunk rest IH]; intros c0.
  { simpl. split; [intros H; by apply elem_of_nil in H|by intros (c & i & ch & ? & _)]. }
  simpl. rewrite elem_of_app, elem_of_zip_gather, IH. split.
  - intros [(i & Hs & ->)|(c & i & ch & Hc & Hs & ->)].
    + exists 0%nat, i, chunk. by rewrite Nat.add_0_r.
    + exists (S c), i, ch. by rewrite Nat.add_succ_r.
  - intros (c & i & ch & Hc & Hs & ->). destruct c as [|c]; simpl in Hc.
    + simplify_eq. left. exists i. by rewrite Nat.add_0_r.
    + right. exists c, i, ch. by rewrite Nat.add_succ_r.
Qed.

(** C5. The snapshot of the batched fetch holds exactly the symbols whose
  request returned a response that is not empty, each with that response:
  a request that raises or comes back empty is left out, and the requests
  of the same chunk and of the chunks after it are recorded all the same.
  (The symbols listed by the exchange are pairwise distinct.) *)
Theorem batched_snapshot_is_successes exchange s r :
  NoDup (concat (Producer.futures_tickers_batched client
                   (default Producer._DEFAULT_CHUNK_SIZE (Producer._CHUNK_SIZE exchange)))) →
  Producer._fetch_open_interest_snapshot_batched exchange client !! s = Some r
  ↔ ∃ (c i : nat) chunk,
      Producer.futures_tickers_batched client
        (default Producer._DEFAULT_CHUNK_SIZE (Producer._CHUNK_SIZE exchange)) !! c
      = Some chunk
      ∧ chunk !! i = Some s
      ∧ Producer.open_interest client c i s = Return (Some r).
Proof.
  intros Hnd. unfold Producer._fetch_open_interest_snapshot_batched.
  rewrite for_chunks_requests, record_response_lookup
    by by rewrite requests_fst.
  rewrite elem_of_requests. rewrite lookup_empty. split.
  - intros [(c & i & chunk & ? & ? & ?)|[? _]]; [|done]. by exists c, i, chunk.
  - intros (c & i & chunk & ? & ? & ?). left. by exists c, i, chunk.
Qed.

End Batched.

Lemma batched_snapshot_is_successes_witness :
  Producer._fetch_open_interest_snapshot_batched BINANCE Examples.client0 !! "AAA"
  = Some (Examples.item 1699999995000 7)
  ∧ Producer._fetch_open_interest_snapshot_batched BINANCE Examples.client0
    = {[ "AAA" := Examples.item 1699999995000 7 ]}.
Proof.
  split; [|vm_compute; reflexivity].
  apply (batched_snapshot_is_successes Examples.client0 BINANCE "AAA").
  - apply (bool_decide_unpack _). vm_compute. exact I.
  - exists 0%nat, 0%nat, ["AAA"; "BBB"]. done.
Defined.

(** ** The store under its lock *)

Section Lock.

Variable st : gmap string (list OpenInterestItem).
Variable iterations : list (float * gmap string OpenInterestItem).

Lemma merged_snoc (completed : list (float * gmap string OpenInterestItem))
    now snapshot :
  Locking.merged st (completed ++ [(now, snapshot)])
  = Producer._process_snapshot now snapshot (Locking.merged st completed).
Proof. unfold Locking.merged. by rewrite foldl_snoc. Qed.

Lemma invariant_initial :
  Locking.invariant st iterations (Locking.initial st iterations).
Proof.
  unfold Locking.invariant, Locking.initial. simpl.
  split; [|done]. split; [done|]. by exists [].
Qed.

Lemma invariant_step w w' :
  Locking.invariant st iterations w → Locking.step w w' →
  Locking.invariant st iterations w'.
Proof.
  unfold Locking.invariant.
  intros [Hp Hc] Hstep. destruct Hstep; simpl in *.
  - (* the producer acquires the free lock *)
    destruct Hp as [_ (completed & -> & ->)]. split.
    + split; [done|]. by exists completed, now, snapshot, [].
    + destruct c; intuition congruence.
  - (* the producer merges one item *)
    destruct Hp as [-> (completed & now & snapshot & processed & -> & -> & Hitems & ->)].
    split.
    + split; [done|]. exists completed, now, snapshot, (processed ++ [entry]).
      split_and!; [done|done| |by rewrite foldl_snoc].
      by rewrite <- app_assoc.
    + destruct c; intuition congruence.
  - (* the producer releases the lock *)
    destruct Hp as [-> (completed & now & snapshot & processed & -> & -> & Hitems & ->)].
    rewrite app_nil_r in Hitems. subst processed. split.
    + split; [done|]. exists (completed ++ [(now, snapshot)]).
      split; [by rewrite <- app_assoc|]. by rewrite merged_snoc.
    + destruct c; intuition congruence.
  - (* the call acquires the free lock *)
    split; [|done]. destruct p; intuition congruence.
  - (* the call evaluates its return value *)
    subst lk. destruct p as [pending|thr todo pending]; [|intuition congruence].
    destruct Hp as [Hlock (completed & -> & ->)].
    split; [by split; [|exists completed]|].
    split; [done|]. by exists completed, pending.
  - (* the call releases the lock *)
    destruct Hc as [-> Hv]. split; [|done].
    destruct p; intuition congruence.
Qed.

Lemma invariant_reachable w :
  rtc Locking.step (Locking.initial st iterations) w →
  Locking.invariant st iterations w.
Proof.
  revert w. apply (rtc_ind_r (R := Locking.step) (Locking.invariant st iterations)).
  - apply invariant_initial.
  - intros w w' _ Hstep IH. by apply (invariant_step w w').
Qed.

(** C6. Whatever the interleaving of the steps of the producer (which holds
  the lock around the item-by-item merge of every snapshot) and of a call
  of [fetch_collected_data] (which holds it around its [return]), the store
  content that the call returns is the result of a whole number of merges:
  the state before or after each merge, never one in between. *)
Theorem read_is_never_torn w v :
  rtc Locking.step (Locking.initial st iterations) w →
  Locking.returned w = Some v →
  ∃ completed pending,
    iterations = completed ++ pending ∧ v = Locking.merged st completed.
Proof.
  intros Hrtc Hret. apply invariant_reachable in Hrtc as [_ Hc].
  unfold Locking.returned in Hret.
  destruct (Locking.cpc w); simplify_eq. by destruct Hc as [_ ?].
Qed.

End Lock.

Lemma read_is_never_torn_witness :
  ∃ completed pending,
    [(Examples.now0, Examples.snapshot0)] = completed ++ pending
    ∧ Producer.merge_item (Producer.threshold Examples.now0) Examples.store0
        ("XYZ", Examples.item 1699999995000 7)
      = Locking.merged Examples.store0 completed.
Proof.
  apply (read_is_never_torn Examples.store0 [(Examples.now0, Examples.snapshot0)]
           {| Locking.store :=
                Producer.merge_item (Producer.threshold Examples.now0) Examples.store0
                  ("XYZ", Examples.item 1699999995000 7);
              Locking.lock := None;
              Locking.ppc := Locking.POutside [];
              Locking.cpc :=
                Locking.CReturned
                  (Producer.merge_item (Producer.threshold Examples.now0)
                     Examples.store0 ("XYZ", Examples.item 1699999995000 7)) |}).
  - unfold Locking.initial.
    eapply rtc_l; [apply Locking.producer_acquire|].
    change (map_to_list Examples.snapshot0)
      with [("XYZ", Examples.item 1699999995000 7)].
    eapply rtc_l; [apply Locking.producer_merge|].
    eapply rtc_l; [apply Locking.producer_release|].
    eapply rtc_l; [apply Locking.consumer_acquire|].
    eapply rtc_l; [apply Locking.consumer_return|].
    eapply rtc_l; [apply Locking.consumer_release|].
    apply rtc_refl.
  - reflexivity.
Defined.

(** * Further properties of the code *)

(** ** The growth computation *)

Lemma loop_app thr w1 w2 l :
  Consumer.loop thr (w1 ++ w2) l = Consumer.loop thr w2 (Consumer.loop thr w1 l).
Proof. revert l. induction w1 as [|el w1 IH]; intros l; [done|]. apply IH. Qed.

Lemma loop_drop_stale thr w l :
  Consumer.loop thr w l
  = Consumer.loop thr (filter (λ el, PyFloat.int_ltb (oi_t el) thr = false) w) l.
Proof.
  revert l. induction w as [|el w IH]; intros l; [done|].
  rewrite filter_cons. simpl.
  destruct (decide (PyFloat.int_ltb (oi_t el) thr = false)) as [Hf|Hf].
  - apply IH.
  - apply not_false_is_true in Hf. rewrite loop_body_stale by done. apply IH.
Qed.

Lemma loop_body_max_min thr el l :
  (Consumer.found l = true → PyFloat.ltb (Consumer._max l) (Consumer._min l) = false) →
  Consumer.found (Consumer.loop_body thr el l) = true →
  PyFloat.ltb (Consumer._max (Consumer.loop_body thr el l))
              (Consumer._min (Consumer.loop_body thr el l)) = false.
Proof.
  unfold Consumer.loop_body. intros Hinv.
  destruct (PyFloat.int_ltb (oi_t el) thr); [done|].
  destruct (PyFloat.ltb (oi_v el) (Consumer._min l)) eqn:Hlt; simpl.
  - unfold PyFloat.gtb. rewrite ltb_irrefl. simpl. intros _. apply ltb_irrefl.
  - destruct (PyFloat.gtb (oi_v el) (Consumer._max l)); simpl; [|done].
    intros _. exact Hlt.
Qed.

Lemma loop_max_min thr w l :
  (Consumer.found l = true → PyFloat.ltb (Consumer._max l) (Consumer._min l) = false) →
  Consumer.found (Consumer.loop thr w l) = true →
  PyFloat.ltb (Consumer._max (Consumer.loop thr w l))
              (Consumer._min (Consumer.loop thr w l)) = false.
Proof.
  revert l. induction w as [|el w IH]; intros l Hinv; [done|].
  simpl. apply IH. by apply loop_body_max_min.
Qed.

(** X1. Samples older than the lookback interval do not bear on the growth:
  the result for a window is the result for its samples that are not older
  than the threshold. *)
Theorem stale_samples_do_not_count settings now window :
  Consumer._calculate_open_interest settings now window
  = Consumer._calculate_open_interest settings now
      (filter (λ el, PyFloat.int_ltb (oi_t el)
                       (Consumer.time_threshold settings now) = false) window).
Proof.
  unfold Consumer._calculate_open_interest. by rewrite <- loop_drop_stale.
Qed.

(** X2. A window without a sample in the lookback interval (the empty
  window among them) has no growth: the result is [None]. *)
Theorem no_fresh_sample_is_undefined settings now window :
  Forall (λ el, PyFloat.int_ltb (oi_t el) (Consumer.time_threshold settings now) = true)
    window →
  Consumer._calculate_open_interest settings now window = Return None.
Proof.
  intros Hstale. unfold Consumer._calculate_open_interest.
  rewrite loop_drop_stale.
  assert (filter (λ el, PyFloat.int_ltb (oi_t el)
                          (Consumer.time_threshold settings now) = false) window = [])
    as ->; [|done].
  induction Hstale as [|el w Hel _ IH]; [done|].
  rewrite filter_cons, decide_False; [done|]. by rewrite Hel.
Qed.

Lemma no_fresh_sample_is_undefined_witness :
  Consumer._calculate_open_interest Examples.settings0 Examples.now0
    MoreExamples.window_stale = Return None.
Proof.
  apply (no_fresh_sample_is_undefined Examples.settings0 Examples.now0).
  repeat (apply List.Forall_cons; [vm_compute; reflexivity|]).
  apply List.Forall_nil.
Defined.

(** X3. A late dip erases the growth seen before it: when the last sample
  of the window is in the lookback interval and its value, finite and not
  zero, is strictly below the running min of the samples before it, the
  growth is zero. *)
Theorem late_dip_resets_growth settings now window el s m e :
  PyFloat.int_ltb (oi_t el) (Consumer.time_threshold settings now) = false →
  oi_v el = S754_finite s m e →
  PyFloat.ltb (oi_v el)
    (Consumer._min (Consumer.loop (Consumer.time_threshold settings now) window
                      Consumer.locals_init)) = true →
  Consumer._calculate_open_interest settings now (window ++ [el])
  = Return (Some (S754_zero s)).
Proof.
  intros Hfresh Hv Hlt. unfold Consumer._calculate_open_interest.
  rewrite loop_app. cbn [Consumer.loop]. unfold Consumer.loop_body.
  rewrite Hfresh, Hlt. cbn [Consumer._max Consumer._min Consumer.found].
  unfold PyFloat.gtb. rewrite ltb_irrefl.
  cbn [Consumer._max Consumer._min Consumer.found negb].
  rewrite Hv. unfold truediv. cbn [PyFloat.is_zero].
  by rewrite growth_of_equal.
Qed.

Lemma late_dip_resets_growth_witness :
  Consumer._calculate_open_interest Examples.settings0 Examples.now0
    MoreExamples.window_dip = Return (Some (S754_zero false)).
Proof.
  apply (late_dip_resets_growth Examples.settings0 Examples.now0
           [Examples.item 1699999910000 100; Examples.item 1699999940000 150]
           (Examples.item 1699999990000 90) false 6333186975989760 (-46)).
  - vm_compute. reflexivity.
  - vm_compute. reflexivity.
  - vm_compute. reflexivity.
Defined.

(** X4. Whenever a growth is returned, the running max it is computed from
  is not below the running min: the reset of the max on a new min keeps the
  max at or after the latest min. *)
Theorem growth_max_not_below_min settings now window c :
  Consumer._calculate_open_interest settings now window = Return (Some c) →
  PyFloat.ltb
    (Consumer._max (Consumer.loop (Consumer.time_threshold settings now) window
                      Consumer.locals_init))
    (Consumer._min (Consumer.loop (Consumer.time_threshold settings now) window
                      Consumer.locals_init)) = false.
Proof.
  unfold Consumer._calculate_open_interest. intros Hc.
  apply loop_max_min; [done|].
  by destruct (Consumer.found _).
Qed.

Lemma growth_max_not_below_min_witness :
  PyFloat.ltb
    (Consumer._max (Consumer.loop
                      (Consumer.time_threshold Examples.settings0 Examples.now0)
                      Examples.window0 Consumer.locals_init))
    (Consumer._min (Consumer.loop
                      (Consumer.time_threshold Examples.settings0 Examples.now0)
                      Examples.window0 Consumer.locals_init)) = false.
Proof.
  apply (growth_max_not_below_min Examples.settings0 Examples.now0 Examples.window0
           Examples.f87_5).
  vm_compute. reflexivity.
Defined.

(** ** The detection tick and the loop of the consumer *)

Section TickMore.

Variable exchange : Exchange.
Variable market_type : MarketType.

Local Abbreviation for_symbols := (Detection.for_symbols exchange market_type).
Local Abbreviation _process := (Detection._process exchange market_type).
Local Abbreviation start := (Detection.start exchange market_type).
Local Abbreviation alert_for := (Detection.alert_for exchange market_type).

Lemma for_symbols_distinct tk items tasks (tracker : gmap string float) :
  NoDup items.*1 →
  ∃ new tracker',
    for_symbols tk items tasks tracker = (Return tt, tasks ++ new, tracker')
    ∧ NoDup (task_symbol <$> new)
    ∧ ∀ task, task ∈ new → task_symbol task ∈ items.*1.
Proof.
  revert tasks tracker.
  induction items as [|[symbol klines] rest IH]; intros tasks tracker Hnd.
  { exists [], tracker. rewrite app_nil_r. split_and!; [done|constructor|].
    intros task Hin. by apply elem_of_nil in Hin. }
  rewrite fmap_cons in Hnd. apply NoDup_cons in Hnd as [Hfresh Hnd]. simpl in Hfresh.
  cbn [Detection.for_symbols]. rewrite visit_eq.
  set (tracker1 := match alert_for tk tracker symbol klines with
                   | Some _ => _ | None => _ end).
  destruct (IH (tasks ++ option_list (alert_for tk tracker symbol klines))
              tracker1 Hnd) as (new & tracker' & -> & Hnew & Hsub).
  exists (option_list (alert_for tk tracker symbol klines) ++ new), tracker'.
  split_and!; [by rewrite app_assoc| |].
  - destruct (alert_for tk tracker symbol klines) as [task|] eqn:Ha; simpl; [|done].
    apply NoDup_cons. split; [|done].
    apply alert_for_symbol in Ha. rewrite Ha.
    intros Hin. apply list_elem_of_fmap in Hin as (task' & Heq & Hin).
    apply Hsub in Hin. by rewrite <- Heq in Hin.
  - intros task Hin. rewrite fmap_cons. simpl. apply elem_of_app in Hin as [Hin|Hin].
    + destruct (alert_for tk tracker symbol klines) as [task'|] eqn:Ha; simpl in Hin.
      * apply list_elem_of_singleton in Hin as ->.
        apply alert_for_symbol in Ha. rewrite Ha. left.
      * by apply elem_of_nil in Hin.
    + right. by apply Hsub.
Qed.

(** X5. A tick creates at most one notification task for a symbol, and only
  for symbols of the window snapshot. *)
Theorem one_task_per_symbol tk (tracker : gmap string float) :
  NoDup (task_symbol <$> (_process tk tracker).1.2)
  ∧ ∀ task, task ∈ (_process tk tracker).1.2 →
            is_Some (all_klines tk !! task_symbol task).
Proof.
  destruct (_process_scan exchange market_type tk tracker) as [-> _].
  destruct (for_symbols_distinct tk (map_to_list (all_klines tk)) [] tracker)
    as (new & tracker' & -> & Hnd & Hsub).
  { apply NoDup_fst_map_to_list. }
  simpl. split; [done|]. intros task Hin. apply Hsub in Hin.
  apply list_elem_of_fmap in Hin as ([s klines] & -> & Hin).
  apply elem_of_map_to_list in Hin. by exists klines.
Qed.

(** X6. Every task that a tick creates carries the credentials of the
  settings of the tick, the symbol, the exchange and market identifiers, the
  daily price change and volume of the daily-ticker entry of the symbol, and
  the growth computed over the window of the symbol, which is above the
  threshold of the settings. *)
Theorem task_carries_signal tk (tracker : gmap string float) task :
  task ∈ (_process tk tracker).1.2 →
  ∃ klines ticker_daily c,
    all_klines tk !! task_symbol task = Some klines
    ∧ all_ticker_daily tk !! task_symbol task = Some ticker_daily
    ∧ Consumer._calculate_open_interest (tick_settings tk)
        (time_time tk (task_symbol task) InCalculate) klines = Return (Some c)
    ∧ PyFloat.gtb c (min_growth_prct (tick_settings tk)) = true
    ∧ task = {| task_bot_token := bot_token (tick_settings tk);
                task_chat_id := chat_id (tick_settings tk);
                task_text := create_text (task_symbol task) c exchange market_type
                               (td_p ticker_daily) (td_q ticker_daily) |}.
Proof.
  intros Hin.
  assert (task ∈ Detection.tasks_of (task_symbol task) (_process tk tracker).1.2)
    as Hof by by apply list_elem_of_filter.
  destruct (_process_eq exchange market_type tk tracker (task_symbol task)) as [Ht _].
  rewrite Ht in Hof.
  destruct (all_klines tk !! task_symbol task) as [klines|];
    [|by apply elem_of_nil in Hof].
  destruct (alert_for tk tracker (task_symbol task) klines) as [task'|] eqn:Ha;
    [|by apply elem_of_nil in Hof].
  apply list_elem_of_singleton in Hof as <-.
  unfold Detection.alert_for in Ha.
  destruct (TimeoutTracker.is_blocked _ _ tracker).1; [done|].
  destruct (all_ticker_daily tk !! task_symbol task) as [ticker_daily|]; [|done].
  destruct (Detection._process_symbol _ _ _ _ _ klines ticker_daily)
    as [[task'|]|] eqn:Hp; simplify_eq.
  apply _process_symbol_task in Hp as (c & Hc & _ & Hg & Htask).
  by exists klines, ticker_daily, c.
Qed.






(** X8. While the settings are not ready, the loop of the consumer does
  nothing: every tick creates no task and the tracker stays as it is. *)
Theorem not_ready_ticks_do_nothing ticks (tracker : gmap string float) :
  Forall (λ tk, is_ready (tick_settings tk) = false) ticks →
  start ticks tracker = (replicate (length ticks) [], tracker).
Proof.
  induction 1 as [|tk ticks Hoff _ IH]; [done|].
  cbn [Detection.start]. rewrite Hoff. cbn [negb]. by rewrite IH.
Qed.

Lemma _process_entry_origin tk (tracker : gmap string float) s :
  is_Some ((_process tk tracker).2 !! s) →
  is_Some (tracker !! s)
  ∨ ∃ task, task ∈ (_process tk tracker).1.2 ∧ task_symbol task = s.
Proof.
  rewrite tasks_of_nonempty.
  destruct (_process_eq exchange market_type tk tracker s) as [-> ->].
  destruct (all_klines tk !! s) as [klines|]; [|by left].
  destruct (alert_for tk tracker s klines) as [task|]; simpl; [by right|].
  destruct (tracker !! s) as [deadline|]; [by left; eexists|].
  by intros [? ?].
Qed.

(** X9. The tracker holds entries only for symbols that it held before the
  run or for which a task was created during the run: a symbol that never
  produced a notification never gets a cooldown. *)
Theorem tracker_entries_were_alerted ticks (tracker : gmap string float) s :
  is_Some ((start ticks tracker).2 !! s) →
  is_Some (tracker !! s)
  ∨ ∃ tasks task, tasks ∈ (start ticks tracker).1 ∧ task ∈ tasks ∧ task_symbol task = s.
Proof.
  revert tracker. induction ticks as [|tk ticks IH]; intros tracker; [by left|].
  cbn [Detection.start]. destruct (negb (is_ready (tick_settings tk))).
  - specialize (IH tracker). destruct (start ticks tracker) as [log tracker'].
    simpl in *. intros Hs. destruct (IH Hs) as [?|(tasks & task & ? & ? & ?)];
      [by left|]. right. exists tasks, task. split; [by right|done].
  - pose proof (_process_entry_origin tk tracker s) as Htick.
    destruct (_process tk tracker) as [[o tasks] tracker1]. simpl in Htick.
    destruct o as [r|].
    + specialize (IH tracker1). destruct (start ticks tracker1) as [log tracker'].
      simpl in *. intros Hs.
      destruct (IH Hs) as [Hs1|(tasks' & task & ? & ? & ?)].
      * destruct (Htick Hs1) as [?|(task & ? & ?)]; [by left|].
        right. exists tasks, task. split; [by left|done].
      * right. exists tasks', task. split; [by right|done].
    + simpl. intros Hs. destruct (Htick Hs) as [?|(task & ? & ?)]; [by left|].
      right. exists tasks, task. split; [by left|done].
Qed.

End TickMore.

Lemma task_carries_signal_witness :
  ∃ klines ticker_daily c,
    all_klines Examples.tick_spike !! "XYZ" = Some klines
    ∧ all_ticker_daily Examples.tick_spike !! "XYZ" = Some ticker_daily
    ∧ Consumer._calculate_open_interest Examples.settings0 Examples.now0 klines
      = Return (Some c)
    ∧ PyFloat.gtb c (PyFloat.of_int 25) = true.
Proof.
  destruct (task_carries_signal BINANCE FUTURES Examples.tick_spike ∅
              {| task_bot_token := "token"; task_chat_id := "chat";
                 task_text := create_text "XYZ"
                   (S754_finite false 8444249301319680 (-48)) BINANCE FUTURES
                   (PyFloat.of_int 2) (PyFloat.of_int 1000000) |})
    as (klines & ticker_daily & c & Hk & Hd & Hc & Hg & Htask).
  - vm_compute. left.
  - exists klines, ticker_daily, c.
    split; [exact Hk|]. split; [exact Hd|]. split; [exact Hc|exact Hg].
Defined.

Lemma not_ready_ticks_do_nothing_witness :
  Detection.start BINANCE FUTURES [MoreExamples.tick_off; MoreExamples.tick_off] ∅
  = ([[]; []], ∅).
Proof.
  apply (not_ready_ticks_do_nothing BINANCE FUTURES
           [MoreExamples.tick_off; MoreExamples.tick_off] ∅).
  repeat (apply List.Forall_cons; [reflexivity|]). apply List.Forall_nil.
Defined.

Lemma tracker_entries_were_alerted_witness :
  is_Some ((∅ : gmap string float) !! "XYZ")
  ∨ ∃ tasks task,
      tasks ∈ (Detection.start BINANCE FUTURES [Examples.tick_spike] ∅).1
      ∧ task ∈ tasks ∧ task_symbol task = "XYZ".
Proof.
  apply (tracker_entries_were_alerted BINANCE FUTURES [Examples.tick_spike] ∅ "XYZ").
  vm_compute. by eexists.
Defined.


(** ** Normalisation of a snapshot *)

Section Normalise.

Variable last_prices : gmap string float.

(** The item that the loop leaves for [ticker]: its value divided by the
  price of the ticker when there is one that is not zero. *)
Local Abbreviation normalised_item := (λ (ticker : string) (item : OpenInterestItem),
  {| oi_t := oi_t item;
     oi_v := match last_prices !! ticker with
             | Some last_price =>
                 if PyFloat.is_zero last_price then oi_v item
                 else SFdiv PyFloat.prec PyFloat.emax (oi_v item) last_price
             | None => oi_v item
             end |}).

Lemma normalize_item_eq ticker item :
  Acquisition.normalize_item last_prices ticker item
  = Return (normalised_item ticker item).
Proof.
  unfold Acquisition.normalize_item, truediv, PyFloat.truthy.
  destruct item as [t v]. simpl.
  destruct (last_prices !! ticker) as [last_price|]; [|done].
  rewrite negb_involutive. by destruct (PyFloat.is_zero last_price).
Qed.

Lemma normalize_items_lookup items (open_interest : gmap string OpenInterestItem) :
  NoDup items.*1 →
  (∀ s item, (s, item) ∈ items → open_interest !! s = Some item) →
  ∃ normalised,
    Acquisition.normalize_items last_prices items open_interest = Return normalised
    ∧ ∀ s, normalised !! s
           = if bool_decide (s ∈ items.*1)
             then normalised_item s <$> open_interest !! s
             else open_interest !! s.
Proof.
  revert open_interest.
  induction items as [|[ticker item] rest IH]; intros open_interest Hnd Hitems.
  { exists open_interest. split; [done|]. intros s.
    rewrite bool_decide_eq_false_2; [done|]. apply not_elem_of_nil. }
  rewrite fmap_cons in Hnd. apply NoDup_cons in Hnd as [Hfresh Hnd]. simpl in Hfresh.
  cbn [Acquisition.normalize_items]. rewrite normalize_item_eq. cbn [bind].
  destruct (IH (<[ticker := normalised_item ticker item]> open_interest) Hnd)
    as (normalised & -> & Hlookup).
  { intros s item' Hin. rewrite lookup_insert_ne; [apply Hitems; by right|].
    intros ->. apply Hfresh. apply list_elem_of_fmap. by exists (s, item'). }
  exists normalised. split; [done|]. intros s. rewrite Hlookup, fmap_cons. simpl.
  destruct (decide (s = ticker)) as [->|Hne].
  - rewrite (bool_decide_eq_false_2 (ticker ∈ rest.*1)) by done.
    rewrite bool_decide_eq_true_2 by left.
    rewrite lookup_insert_eq, (Hitems ticker item) by left. done.
  - rewrite lookup_insert_ne by done.
    destruct (decide (s ∈ rest.*1)) as [Hin|Hin].
    + rewrite !bool_decide_eq_true_2; [done|by right|done].
    + rewrite !bool_decide_eq_false_2; [done| |done].
      by apply not_elem_of_cons.
Qed.

(** X10. On BINGX and ASTER, when the prices are fetched, normalisation
  returns a snapshot with the same symbols and timestamps, in which the
  value of a symbol is divided by its last price if that price exists and is
  not zero, and is kept as it is otherwise: no sample is dropped and nothing
  is raised. On every other exchange the snapshot is returned as it is,
  whatever the price request would give. *)
Theorem normalisation_divides_by_price exchange snapshot :
  (exchange = BINGX ∨ exchange = ASTER →
   ∃ normalised,
     Acquisition._normalize_open_interest_snapshot exchange (Return last_prices) snapshot
     = Return normalised
     ∧ ∀ s, normalised !! s = normalised_item s <$> snapshot !! s)
  ∧ (exchange ≠ BINGX → exchange ≠ ASTER →
     ∀ futures_last_price,
       Acquisition._normalize_open_interest_snapshot exchange futures_last_price snapshot
       = Return snapshot).
Proof.
  split.
  - intros Hex.
    destruct (normalize_items_lookup (map_to_list snapshot) snapshot)
      as (normalised & Heq & Hlookup).
    { apply NoDup_fst_map_to_list. }
    { intros s item Hin. by apply elem_of_map_to_list. }
    exists normalised. split; [by destruct Hex as [-> | ->]|].
    intros s. rewrite Hlookup. case_bool_decide as Hin; [done|].
    destruct (snapshot !! s) as [item|] eqn:Hs; [|done].
    exfalso. apply Hin. apply list_elem_of_fmap. exists (s, item).
    split; [done|]. by apply elem_of_map_to_list.
  - intros H1 H2 futures_last_price. by destruct exchange.
Qed.

End Normalise.

Lemma normalisation_divides_by_price_witness :
  ∃ normalised,
    Acquisition._normalize_open_interest_snapshot BINGX (Return MoreExamples.prices0)
      MoreExamples.snapshot_three = Return normalised
    ∧ normalised !! "XYZ" = Some (Examples.item 1699999995000 25)
    ∧ normalised !! "ZERO" = Some (Examples.item 1699999995000 50)
    ∧ normalised !! "NOPRICE" = Some (Examples.item 1699999995000 60).
Proof.
  destruct (proj1 (normalisation_divides_by_price MoreExamples.prices0 BINGX
                     MoreExamples.snapshot_three))
    as (normalised & Heq & Hlookup); [by left|].
  exists normalised. split; [exact Heq|].
  rewrite !Hlookup. split_and!; vm_compute; reflexivity.
Defined.

(** ** The batched fetch, with repeated symbols *)

Lemma record_response_keeps
    (pairs : list (string * result (option OpenInterestItem)))
    (results : gmap string OpenInterestItem) s :
  is_Some (results !! s) →
  is_Some (foldl Producer.record_response results pairs !! s).
Proof.
  revert results. induction pairs as [|[ticker response] rest IH];
    intros results Hs; [done|].
  cbn [foldl]. apply IH. unfold Producer.record_response. simpl.
  destruct response as [[response|]|e]; try done.
  destruct (decide (ticker = s)) as [->|Hne].
  - rewrite lookup_insert_eq. by eexists.
  - by rewrite lookup_insert_ne.
Qed.

Lemma record_response_sound
    (pairs : list (string * result (option OpenInterestItem)))
    (results : gmap string OpenInterestItem) s r :
  foldl Producer.record_response results pairs !! s = Some r →
  (s, Return (Some r)) ∈ pairs ∨ results !! s = Some r.
Proof.
  revert results. induction pairs as [|[ticker response] rest IH];
    intros results Hs; [by right|].
  cbn [foldl] in Hs. apply IH in Hs as [Hin|Hs]; [by left; right|].
  unfold Producer.record_response in Hs. simpl in Hs.
  destruct response as [[response|]|e]; try by right.
  destruct (decide (ticker = s)) as [->|Hne].
  - rewrite lookup_insert_eq in Hs. simplify_eq. left. left.
  - rewrite lookup_insert_ne in Hs by done. by right.
Qed.

Lemma record_response_complete
    (pairs : list (string * result (option OpenInterestItem)))
    (results : gmap string OpenInterestItem) s r :
  (s, Return (Some r)) ∈ pairs →
  is_Some (foldl Producer.record_response results pairs !! s).
Proof.
  revert results. induction pairs as [|[ticker response] rest IH];
    intros results Hin.
  { by apply elem_of_nil in Hin. }
  cbn [foldl]. apply elem_of_cons in Hin as [Heq|Hin]; [|by apply IH].
  simplify_eq. apply record_response_keeps.
  unfold Producer.record_response. simpl. rewrite lookup_insert_eq. by eexists.
Qed.

(** X11. Whatever the ticker list is, repeated symbols included: every
  entry of the snapshot of the batched fetch is a response that is not
  empty, returned by a request for that symbol, and a symbol is in the
  snapshot exactly when one of its requests returned such a response. *)
Theorem batched_snapshot_holds_only_responses exchange client s :
  (∀ r, Producer._fetch_open_interest_snapshot_batched exchange client !! s = Some r →
        ∃ (c i : nat) chunk,
          Producer.futures_tickers_batched client
            (default Producer._DEFAULT_CHUNK_SIZE (Producer._CHUNK_SIZE exchange)) !! c
          = Some chunk
          ∧ chunk !! i = Some s
          ∧ Producer.open_interest client c i s = Return (Some r))
  ∧ (is_Some (Producer._fetch_open_interest_snapshot_batched exchange client !! s)
     ↔ ∃ (c i : nat) chunk r,
         Producer.futures_tickers_batched client
           (default Producer._DEFAULT_CHUNK_SIZE (Producer._CHUNK_SIZE exchange)) !! c
         = Some chunk
         ∧ chunk !! i = Some s
         ∧ Producer.open_interest client c i s = Return (Some r)).
Proof.
  unfold Producer._fetch_open_interest_snapshot_batched.
  rewrite for_chunks_requests.
  assert (∀ r, foldl Producer.record_response ∅
                 (Producer.requests client 0
                    (Producer.futures_tickers_batched client
                       (default Producer._DEFAULT_CHUNK_SIZE
                          (Producer._CHUNK_SIZE exchange)))) !! s = Some r →
               ∃ (c i : nat) chunk,
                 Producer.futures_tickers_batched client
                   (default Producer._DEFAULT_CHUNK_SIZE
                      (Producer._CHUNK_SIZE exchange)) !! c = Some chunk
                 ∧ chunk !! i = Some s
                 ∧ Producer.open_interest client c i s = Return (Some r)) as Hsound.
  { intros r Hs. apply record_response_sound in Hs as [Hin|Hs]; [|done].
    apply elem_of_requests in Hin as (c & i & chunk & ? & ? & ?).
    by exists c, i, chunk. }
  split; [exact Hsound|]. split.
  - intros [r Hs]. destruct (Hsound r Hs) as (c & i & chunk & ?).
    by exists c, i, chunk, r.
  - intros (c & i & chunk & r & Hc & Hi & Hr).
    apply (record_response_complete _ _ s r).
    apply elem_of_requests. by exists c, i, chunk.
Qed.

(** ** The store across merges *)

Lemma _process_snapshot_is_Some now snapshot
    (store : gmap string (list OpenInterestItem)) s :
  is_Some (Producer._process_snapshot now snapshot store !! s)
  ↔ is_Some (store !! s) ∨ is_Some (snapshot !! s).
Proof.
  destruct (snapshot !! s) as [item|] eqn:Hs.
  - rewrite (_process_snapshot_present _ _ _ _ item) by done.
    split; [intros _; right|intros _]; by eexists.
  - rewrite _process_snapshot_absent by done.
    split; [by left|by intros [?|[? ?]]].
Qed.

Lemma _process_snapshot_nonempty now snapshot
    (store : gmap string (list OpenInterestItem)) :
  (∀ s l, store !! s = Some l → l ≠ []) →
  ∀ s l, Producer._process_snapshot now snapshot store !! s = Some l → l ≠ [].
Proof.
  intros Hstore s l. destruct (snapshot !! s) as [item|] eqn:Hs.
  - rewrite (_process_snapshot_present _ _ _ _ item) by done.
    intros [= <-] Hnil. by apply app_nil in Hnil as [_ ?].
  - rewrite _process_snapshot_absent by done. apply Hstore.
Qed.

(** X12. A merge never removes a symbol: the symbols of the store after it
  are those of the store before it and those of the snapshot. *)
Theorem merge_symbols now snapshot (store : gmap string (list OpenInterestItem)) :
  dom (Producer._process_snapshot now snapshot store) = dom store ∪ dom snapshot.
Proof.
  apply set_eq. intros s.
  rewrite elem_of_union, !elem_of_dom. apply _process_snapshot_is_Some.
Qed.

(** X13. A merge drops no sample that is inside the retention horizon:
  every prior sample of a symbol of the snapshot whose timestamp is at or
  above the threshold is in the new sequence; when all of them are, the new
  sequence is the prior one followed by the new item. *)
Theorem merge_keeps_fresh_samples now snapshot
    (store : gmap string (list OpenInterestItem)) s item :
  snapshot !! s = Some item →
  (∀ el, el ∈ store !!! s →
         PyFloat.int_geb (oi_t el) (Producer.threshold now) = true →
         el ∈ Producer._process_snapshot now snapshot store !!! s)
  ∧ (Forall (λ el, PyFloat.int_geb (oi_t el) (Producer.threshold now) = true)
       (store !!! s) →
     Producer._process_snapshot now snapshot store !! s
     = Some (store !!! s ++ [item])).
Proof.
  intros Hs.
  pose proof (_process_snapshot_present now snapshot store s item Hs) as Heq.
  split.
  - intros el Hin Hfresh. rewrite lookup_total_alt, Heq. simpl.
    apply elem_of_app. left. by apply list_elem_of_filter.
  - intros Hall. rewrite Heq. by rewrite filter_all.
Qed.

Lemma merge_keeps_fresh_samples_witness :
  Producer._process_snapshot Examples.now0 Examples.snapshot0
    MoreExamples.store_fresh !! "XYZ"
  = Some (MoreExamples.store_fresh !!! "XYZ" ++ [Examples.item 1699999995000 7]).
Proof.
  apply (merge_keeps_fresh_samples Examples.now0 Examples.snapshot0
           MoreExamples.store_fresh "XYZ" (Examples.item 1699999995000 7)).
  - vm_compute. reflexivity.
  - change (MoreExamples.store_fresh !!! "XYZ")
      with [Examples.item 1699999990000 6].
    apply List.Forall_cons; [vm_compute; reflexivity|apply List.Forall_nil].
Defined.

(** ** The loop of the producer *)

Lemma iteration_is_Some exchange it (store : gmap string (list OpenInterestItem)) s :
  is_Some (store !! s) → is_Some (Acquisition.iteration exchange store it !! s).
Proof.
  intros Hs. unfold Acquisition.iteration.
  destruct (Acquisition.snapshot_of exchange it); [|done].
  apply _process_snapshot_is_Some. by left.
Qed.

Lemma iteration_nonempty exchange it (store : gmap string (list OpenInterestItem)) :
  (∀ s l, store !! s = Some l → l ≠ []) →
  ∀ s l, Acquisition.iteration exchange store it !! s = Some l → l ≠ [].
Proof.
  intros Hstore. unfold Acquisition.iteration.
  destruct (Acquisition.snapshot_of exchange it); [|done].
  by apply _process_snapshot_nonempty.
Qed.

(** X14. The store never holds an empty window: if no sequence of the store
  is empty when the loop of the producer starts (the store is empty then),
  none is after any number of iterations, failed ones included. *)
Theorem store_windows_never_empty exchange iterations
    (store : gmap string (list OpenInterestItem)) :
  (∀ s l, store !! s = Some l → l ≠ []) →
  ∀ s l, Acquisition.start exchange iterations store !! s = Some l → l ≠ [].
Proof.
  unfold Acquisition.start. revert store.
  induction iterations as [|it rest IH]; intros store Hstore; [done|].
  cbn [foldl]. apply IH. by apply iteration_nonempty.
Qed.

(** X15. The loop of the producer never forgets a symbol: a symbol of the
  store stays in the store through every iteration, whether the iteration
  fetched it, missed it or failed. *)
Theorem store_never_forgets exchange iterations
    (store : gmap string (list OpenInterestItem)) s :
  is_Some (store !! s) →
  is_Some (Acquisition.start exchange iterations store !! s).
Proof.
  unfold Acquisition.start. revert store.
  induction iterations as [|it rest IH]; intros store Hs; [done|].
  cbn [foldl]. apply IH. by apply iteration_is_Some.
Qed.

Lemma store_windows_never_empty_witness :
  Acquisition.start (OtherExchange "BYBIT")
    [MoreExamples.iteration_ok; MoreExamples.iteration_failed] ∅ !! "XYZ"
  = Some [Examples.item 1699999995000 7]
  ∧ [Examples.item 1699999995000 7] ≠ [].
Proof.
  assert (Acquisition.start (OtherExchange "BYBIT")
            [MoreExamples.iteration_ok; MoreExamples.iteration_failed] ∅ !! "XYZ"
          = Some [Examples.item 1699999995000 7]) as Hlookup
    by (vm_compute; reflexivity).
  split; [exact Hlookup|].
  eapply (store_windows_never_empty (OtherExchange "BYBIT")
            [MoreExamples.iteration_ok; MoreExamples.iteration_failed] ∅);
    [|exact Hlookup].
  intros s l Hs. by rewrite lookup_empty in Hs.
Defined.

Lemma store_never_forgets_witness :
  is_Some (Acquisition.start (OtherExchange "BYBIT")
             [MoreExamples.iteration_failed; MoreExamples.iteration_ok]
             Examples.store_stale !! "OLD").
Proof.
  apply (store_never_forgets (OtherExchange "BYBIT")
           [MoreExamples.iteration_failed; MoreExamples.iteration_ok]
           Examples.store_stale "OLD").
  vm_compute. by eexists.
Defined.

(** ** The interruptible sleep *)

Lemma safe_sleep_loop_spec (is_running : nat → bool) i remaining :
  (Acquisition.safe_sleep_loop is_running i remaining ≤ remaining)%nat
  ∧ (∀ j, (j < Acquisition.safe_sleep_loop is_running i remaining)%nat →
          is_running (i + j)%nat = true)
  ∧ ((Acquisition.safe_sleep_loop is_running i remaining < remaining)%nat →
     is_running (i + Acquisition.safe_sleep_loop is_running i remaining)%nat = false).
Proof.
  revert i. induction remaining as [|remaining IH]; intros i; simpl.
  { split_and!; [lia|intros j; lia|lia]. }
  destruct (is_running i) eqn:Hi; simpl.
  - destruct (IH (S i)) as (Hle & Hrun & Hstop). split_and!.
    + lia.
    + intros [|j] Hj; [by rewrite Nat.add_0_r|].
      rewrite Nat.add_succ_r. apply Hrun. lia.
    + intros Hlt. rewrite Nat.add_succ_r. apply Hstop. lia.
  - split_and!; [lia|intros j; lia|]. intros _. by rewrite Nat.add_0_r.
Qed.

(** X16. [_safe_sleep(seconds)] sleeps at most [seconds] seconds, one at a
  time; it sleeps no further second once a check finds the running flag
  cleared, and it is such a check that ends it early. For a [seconds] that
  is not positive it does not sleep. *)
Theorem safe_sleep_is_interruptible (is_running : nat → bool) seconds :
  (Acquisition._safe_sleep is_running seconds ≤ Z.to_nat seconds)%nat
  ∧ (∀ j, is_running j = false → (Acquisition._safe_sleep is_running seconds ≤ j)%nat)
  ∧ ((Acquisition._safe_sleep is_running seconds < Z.to_nat seconds)%nat →
     is_running (Acquisition._safe_sleep is_running seconds) = false)
  ∧ (seconds ≤ 0 → Acquisition._safe_sleep is_running seconds = 0%nat).
Proof.
  unfold Acquisition._safe_sleep.
  destruct (safe_sleep_loop_spec is_running 0 (Z.to_nat seconds))
    as (Hle & Hrun & Hstop).
  split_and!; [done| |done|].
  - intros j Hj.
    destruct (decide (j < Acquisition.safe_sleep_loop is_running 0 (Z.to_nat seconds))%nat)
      as [Hlt|]; [|lia].
    apply Hrun in Hlt. simpl in Hlt. congruence.
  - intros Hneg. by replace (Z.to_nat seconds) with 0%nat by lia.
Qed.

Lemma safe_sleep_is_interruptible_witness :
  Acquisition._safe_sleep MoreExamples.stop_at_three 20 = 3%nat
  ∧ (Acquisition._safe_sleep MoreExamples.stop_at_three 20 ≤ 5)%nat.
Proof.
  split; [vm_compute; reflexivity|].
  apply (proj1 (proj2 (safe_sleep_is_interruptible MoreExamples.stop_at_three 20)) 5%nat).
  vm_compute. reflexivity.
Defined.

(** ** The lock of the store *)

Section LockMore.

Variable st : gmap string (list OpenInterestItem).
Variable iterations : list (float * gmap string OpenInterestItem).

(** X17. The lock is exclusive: in no reachable world is the producer
  inside [_process_snapshot] while the call of [fetch_collected_data] is
  inside the lock. *)
Theorem lock_is_exclusive w thr todo pending :
  rtc Locking.step (Locking.initial st iterations) w →
  Locking.ppc w = Locking.PInside thr todo pending →
  Locking.cpc w = Locking.CBefore ∨ ∃ v, Locking.cpc w = Locking.CReturned v.
Proof.
  intros Hrtc Hp. apply invariant_reachable in Hrtc as [Hprod Hcons].
  rewrite Hp in Hprod. destruct Hprod as [Hlock _].
  destruct (Locking.cpc w) as [| |v|v]; [by left| | |by right; exists v].
  - congruence.
  - destruct Hcons as [? _]. congruence.
Qed.

(** X18. The two tasks never block each other for good: from every
  reachable world either a step can be taken, or the producer has completed
  every iteration and the call has returned. *)
Theorem lock_never_deadlocks w :
  rtc Locking.step (Locking.initial st iterations) w →
  (Locking.ppc w = Locking.POutside [] ∧ ∃ v, Locking.cpc w = Locking.CReturned v)
  ∨ ∃ w', Locking.step w w'.
Proof.
  intros Hrtc. apply invariant_reachable in Hrtc as [Hprod Hcons].
  destruct w as [store lk p c]. simpl in *.
  destruct p as [pending|thr todo pending].
  - destruct Hprod as [Hnotp _]. destruct c as [| |v|v].
    + right. destruct lk as [[]|]; [done|done|].
      eexists. apply Locking.consumer_acquire.
    + right. eexists. apply Locking.consumer_return.
    + right. eexists. apply Locking.consumer_release.
    + destruct Hcons as [Hnotc _]. destruct lk as [[]|]; [done|done|].
      destruct pending as [|[now snapshot] pending].
      * left. split; [done|by exists v].
      * right. eexists. apply Locking.producer_acquire.
  - right. destruct todo as [|entry todo].
    + eexists. apply Locking.producer_release.
    + eexists. apply Locking.producer_merge.
Qed.

End LockMore.

Lemma lock_is_exclusive_witness :
  Locking.CBefore = Locking.CBefore
  ∨ ∃ v, Locking.CBefore = Locking.CReturned v.
Proof.
  apply (lock_is_exclusive Examples.store0 [(Examples.now0, Examples.snapshot0)]
           {| Locking.store := Examples.store0;
              Locking.lock := Some Locking.ProducerTask;
              Locking.ppc := Locking.PInside (Producer.threshold Examples.now0)
                               (map_to_list Examples.snapshot0) [];
              Locking.cpc := Locking.CBefore |}
           (Producer.threshold Examples.now0) (map_to_list Examples.snapshot0) []).
  - unfold Locking.initial.
    eapply rtc_l; [apply Locking.producer_acquire|]. apply rtc_refl.
  - reflexivity.
Defined.

Lemma lock_never_deadlocks_witness :
  (Locking.ppc (Locking.initial Examples.store0 [(Examples.now0, Examples.snapshot0)])
   = Locking.POutside []
   ∧ ∃ v, Locking.cpc (Locking.initial Examples.store0
                         [(Examples.now0, Examples.snapshot0)])
          = Locking.CReturned v)
  ∨ ∃ w', Locking.step
            (Locking.initial Examples.store0 [(Examples.now0, Examples.snapshot0)]) w'.
Proof.
  apply (lock_never_deadlocks Examples.store0 [(Examples.now0, Examples.snapshot0)]).
  apply rtc_refl.
Defined.

(** ** The text of a signal *)

Lemma geb_above_threshold (c m : float) :
  PyFloat.gtb c m = true →
  CreateText.geb m (PyFloat.of_int 0) = true →
  CreateText.geb c (PyFloat.of_int 0) = true.
Proof.
  unfold PyFloat.gtb, CreateText.geb, SFltb, SFleb.
  change (PyFloat.of_int 0) with (S754_zero false).
  destruct c as [[]|[]| |[] mc ec], m as [[]|[]| |[] mm em]; simpl; done.
Qed.

Section Text.

Variable exchange : Exchange.
Variable market_type : MarketType.
Variable generate_ex_link : Exchange → MarketType → string → string.
Variable make_humanreadable : float → string.
Variable format_2f : float → string.

(** X19. With a threshold that is not negative, the text of every signal
  that [_process_symbol] sends starts with the rocket: the growth it
  reports is above the threshold, so [create_text] never marks it with the
  sign of a fall. *)
Theorem signal_text_starts_with_rocket settings now symbol klines ticker_daily task :
  CreateText.geb (min_growth_prct settings) (PyFloat.of_int 0) = true →
  Detection._process_symbol exchange market_type settings now symbol klines
    ticker_daily = Return (Some task) →
  CreateText.direction_emoji (text_change_pct (task_text task)) = "🚀"
  ∧ String.prefix "🚀"
      (CreateText.text generate_ex_link make_humanreadable format_2f (task_text task))
    = true.
Proof.
  intros Hmin Htask.
  apply _process_symbol_task in Htask as (c & _ & _ & Hgt & ->).
  assert (CreateText.direction_emoji c = "🚀") as Hemoji.
  { unfold CreateText.direction_emoji.
    by rewrite (geb_above_threshold c (min_growth_prct settings)). }
  split; [exact Hemoji|].
  unfold CreateText.text, CreateText.header. simpl. by rewrite Hemoji.
Qed.

End Text.

Lemma signal_text_starts_with_rocket_witness :
  CreateText.direction_emoji (S754_finite false 8444249301319680 (-48)) = "🚀"
  ∧ String.prefix "🚀"
      (CreateText.text (λ _ _ _, "link") (λ _, "1M") (λ _, "0.00")
         (create_text "XYZ" (S754_finite false 8444249301319680 (-48)) BINANCE FUTURES
            (PyFloat.of_int 2) (PyFloat.of_int 1000000)))
    = true.
Proof.
  apply (signal_text_starts_with_rocket BINANCE FUTURES (λ _ _ _, "link")
           (λ _, "1M") (λ _, "0.00") Examples.settings0 Examples.now0 "XYZ"
           [Examples.item 1699999910000 1000; Examples.item 1699999990000 1300]
           {| td_p := PyFloat.of_int 2; td_q := PyFloat.of_int 1000000 |}
           {| task_bot_token := "token"; task_chat_id := "chat";
              task_text := create_text "XYZ"
                (S754_finite false 8444249301319680 (-48)) BINANCE FUTURES
                (PyFloat.of_int 2) (PyFloat.of_int 1000000) |}).
  - vm_compute. reflexivity.
  - vm_compute. reflexivity.
Defined.

Lemma batched_snapshot_holds_only_responses_witness :
  is_Some (Producer._fetch_open_interest_snapshot_batched GATE Examples.client0 !! "AAA").
Proof.
  apply (proj2 (batched_snapshot_holds_only_responses GATE Examples.client0 "AAA")).
  exists 0%nat, 0%nat, ["AAA"; "BBB"], (Examples.item 1699999995000 7). done.
Defined.
